(** * LT-MED surrogate costing and trough surrogate: a shallow embedding

    Source files embedded here:
    - [watertap_contrib/seto/costing/units/lt_med_surrogate.py]
    - [watertap_contrib/seto/solar_models/surrogate/trough/trough_surrogate.py]

    Pyomo blocks are finite maps from attribute names to components, Pyomo
    expressions are syntax trees, physical units are exponent vectors over the
    named units the two files mention, and the effectful methods of the trough
    class run in a state-and-exception monad over the part of the process
    state they touch (file system, [sys.stdout], numpy's global generator). *)

From Stdlib Require Import QArith Qpower Reals Lra Lia List.
From stdpp Require Import gmap strings list fin_maps.

Local Open Scope string_scope.

(* ===================================================================== *)
(** * Physical units (pyomo.environ.units over a pint registry)          *)
(* ===================================================================== *)

Module pyunits.

(** The named units that occur in the two source files. *)
Inductive named : Type :=
| base_currency | m | kg | s | day | year | hr | kWh | kW | MW.

Definition all_named : list named :=
  [base_currency; m; kg; s; day; year; hr; kWh; kW; MW].

Definition named_eqb (a b : named) : bool :=
  match a, b with
  | base_currency, base_currency | m, m | kg, kg | s, s | day, day
  | year, year | hr, hr | kWh, kWh | kW, kW | MW, MW => true
  | _, _ => false
  end.

(** A unit is a product of named units raised to rational powers, kept
    as the list of its factors (pint's [UnitsContainer]). *)
Definition pint_unit : Type := list (named * Q).

Definition dimensionless : pint_unit := [].
Definition one (n : named) : pint_unit := [(n, 1%Q)].
Definition umul (a b : pint_unit) : pint_unit := (a ++ b)%list.
Definition udiv (a b : pint_unit) : pint_unit :=
  (a ++ map (fun f => (fst f, (- snd f)%Q)) b)%list.
Definition upow (a : pint_unit) (p : Q) : pint_unit :=
  map (fun f => (fst f, (snd f * p)%Q)) a.

(** Total exponent of a named unit in a unit. *)
Definition exponent (u : pint_unit) (n : named) : Q :=
  fold_right
    (fun f acc => if named_eqb (fst f) n then (snd f + acc)%Q else acc)
    0%Q u.

(** Base dimensions of the registry. *)
Inductive base_dim : Type := Currency | Length | Mass | Time.

Definition all_dims : list base_dim := [Currency; Length; Mass; Time].

(** Dimensionality of each named unit: energy is M L^2 T^-2 and power is
    M L^2 T^-3. *)
Definition dim_of_named (n : named) (d : base_dim) : Q :=
  match n, d with
  | base_currency, Currency => 1
  | m, Length => 1
  | kg, Mass => 1
  | (s | day | year | hr), Time => 1
  | kWh, Mass => 1 | kWh, Length => 2 | kWh, Time => -2
  | (kW | MW), Mass => 1 | (kW | MW), Length => 2 | (kW | MW), Time => -3
  | _, _ => 0
  end%Q.

Definition dimensionality (u : pint_unit) (d : base_dim) : Q :=
  fold_right (fun f acc => (snd f * dim_of_named (fst f) d + acc)%Q) 0%Q u.

(** Same dimensionality: the two units measure the same physical
    quantity. *)
Definition same_dimension (a b : pint_unit) : bool :=
  forallb (fun d => Qeq_bool (dimensionality a d) (dimensionality b d))
          all_dims.

(** The same named units to the same powers. *)
Definition unit_eqb (a b : pint_unit) : bool :=
  forallb (fun n => Qeq_bool (exponent a n) (exponent b n)) all_named.

(** Factor of each named unit to the registry's base units (metre,
    kilogram, second, currency); a pint year is 365.25 days. *)
Definition base_factor_named (n : named) : Q :=
  match n with
  | base_currency | m | kg | s => 1
  | day => 86400
  | year => 31557600
  | hr => 3600
  | kWh => 3600000
  | kW => 1000
  | MW => 1000000
  end%Q.

(** Factor of a unit to base units.  pint computes it in floating point
    for any exponent; here it is exact and defined for the integral
    exponents, which are the only ones [convert] meets in these files. *)
Definition base_factor (u : pint_unit) : option Q :=
  fold_right
    (fun n acc =>
       match acc with
       | None => None
       | Some f =>
           let e := Qred (exponent u n) in
           if Pos.eqb (Qden e) 1
           then Some (Qred (f * Qpower (base_factor_named n) (Qnum e)))
           else None
       end)
    (Some 1%Q) all_named.

End pyunits.

Declare Scope unit_scope.
Delimit Scope unit_scope with unit.
Bind Scope unit_scope with pyunits.pint_unit.
Notation "a * b" := (pyunits.umul a b) : unit_scope.
Notation "a / b" := (pyunits.udiv a b) : unit_scope.
Notation "a ** p" := (pyunits.upow a p%Q)
  (at level 30, right associativity) : unit_scope.
Coercion pyunits.one : pyunits.named >-> pyunits.pint_unit.


(* ===================================================================== *)
(** * Pyomo components and expressions                                   *)
(* ===================================================================== *)

Module pyo.

(** [pyo.Var(initialize=.., units=.., bounds=(lb, ub), doc=..)]; a [Var]
    built without [bounds] has [(None, None)].  [fixed] is set by
    [fix()] / [fix_all_vars()]. *)
Record Var : Type := mkVar {
  initialize : Q;
  units : pyunits.pint_unit;
  bounds : option Q * option Q;
  doc : string;
  fixed : bool
}.

Definition lb (v : Var) : option Q := fst (bounds v).
Definition ub (v : Var) : option Q := snd (bounds v).

Definition fix_var (v : Var) : Var :=
  {| initialize := initialize v; units := units v; bounds := bounds v;
     doc := doc v; fixed := true |}.

(** A block is a name space: attribute name to component. *)
Abbreviation block := (gmap string Var).

Definition fix_all_vars (b : block) : block := fix_var <$> b.

(** [blk.name = pyo.Var(...)] for a sequence of declarations, in source
    order. *)
Definition add_components (b : block) (decls : list (string * Var)) : block :=
  fold_left (fun acc d => <[d.1 := d.2]> acc) decls b.

(** The blocks the two source files read and write. *)
Inductive owner : Type :=
| lt_med_params   (* blk.costing_package.lt_med_surrogate *)
| blk             (* the unit's costing block *)
| lt_med          (* blk.unit_model *)
| feed            (* lt_med.feed_props[0] *)
| dist            (* lt_med.distillate_props[0] *)
| brine           (* lt_med.brine_props[0] *)
| trough.         (* a TroughSurrogate unit *)

Definition model : Type := owner -> block.

(** Expression trees as Pyomo builds them from Python operators. *)
Inductive expr : Type :=
| Num (c : Q)
| UnitLeaf (u : pyunits.pint_unit)
| Ref (o : owner) (attr : string)
| Sum (a b : expr)
| Diff (a b : expr)
| Prod (a b : expr)
| Quot (a b : expr)
| Pow (a b : expr).

(** [lhs == rhs] *)
Record constraint : Type := Equality { lhs : expr; rhs : expr }.

(** Attribute access on a block; a missing attribute is Python's
    [AttributeError]. *)
Definition getattr (M : model) (o : owner) (attr : string) : option expr :=
  match M o !! attr with
  | Some _ => Some (Ref o attr)
  | None => None
  end.

Definition equivalent_to_dimensionless (u : pyunits.pint_unit) : bool :=
  pyunits.same_dimension u pyunits.dimensionless.

(** Units of an expression, by the rules of Pyomo's units walker: a
    number is dimensionless, a variable has its declared units, the
    terms of a sum must be equivalent, products and quotients combine,
    and the exponent of a power must be dimensionless and, when the base
    has units, a number or a fixed variable.  [None] is Pyomo's
    [UnitsError] / [InconsistentUnitsError].  Equivalence is taken up to
    dimensionality (Pyomo also compares the scale). *)
Fixpoint get_units (M : model) (e : expr) : option pyunits.pint_unit :=
  match e with
  | Num _ => Some pyunits.dimensionless
  | UnitLeaf u => Some u
  | Ref o a => units <$> (M o !! a)
  | Sum a b | Diff a b =>
      ua ← get_units M a; ub ← get_units M b;
      if pyunits.same_dimension ua ub then Some ua else None
  | Prod a b =>
      ua ← get_units M a; ub ← get_units M b; Some (pyunits.umul ua ub)
  | Quot a b =>
      ua ← get_units M a; ub ← get_units M b; Some (pyunits.udiv ua ub)
  | Pow a b =>
      ua ← get_units M a; ub ← get_units M b;
      if negb (equivalent_to_dimensionless ub) then None else
      match b with
      | Num c => Some (pyunits.upow ua c)
      | _ =>
          if equivalent_to_dimensionless ua then Some pyunits.dimensionless
          else match b with
               | Ref o a =>
                   v ← M o !! a;
                   if fixed v then Some (pyunits.upow ua (initialize v))
                   else None
               | _ => None
               end
      end
  end.

(** [assert_units_consistent] on an equality constraint. *)
Definition units_consistent (M : model) (c : constraint) : bool :=
  match get_units M (lhs c), get_units M (rhs c) with
  | Some ul, Some ur => pyunits.same_dimension ul ur
  | _, _ => false
  end.

(** [pyo.units.convert(src, to_units=..)]: the source itself when the
    units already agree, an error when the dimensions differ, otherwise
    the source scaled by the ratio of the base factors. *)
Definition convert (M : model) (src : expr) (to_units : pyunits.pint_unit)
  : option expr :=
  su ← get_units M src;
  if pyunits.unit_eqb su to_units then Some src
  else if negb (pyunits.same_dimension su to_units) then None
  else
    fs ← pyunits.base_factor su;
    ft ← pyunits.base_factor to_units;
    Some (Prod (Prod (Num (Qred (fs / ft)))
                     (UnitLeaf (pyunits.udiv to_units su))) src).

(** Numeric value of an expression under a valuation of the variables.
    [**] is the real power [exp (y * ln x)], which is Python's float
    power on a positive base. *)
Definition valuation : Type := owner -> string -> R.

Fixpoint eval (rho : valuation) (e : expr) : R :=
  match e with
  | Num c => Q2R c
  | UnitLeaf _ => 1%R
  | Ref o a => rho o a
  | Sum a b => (eval rho a + eval rho b)%R
  | Diff a b => (eval rho a - eval rho b)%R
  | Prod a b => (eval rho a * eval rho b)%R
  | Quot a b => (eval rho a / eval rho b)%R
  | Pow a b => Rpower (eval rho a) (eval rho b)
  end.

Definition satisfied (rho : valuation) (c : constraint) : Prop :=
  eval rho (lhs c) = eval rho (rhs c).

End pyo.

Declare Scope expr_scope.
Delimit Scope expr_scope with expr.
Bind Scope expr_scope with pyo.expr.
Notation "a + b" := (pyo.Sum a b) : expr_scope.
Notation "a - b" := (pyo.Diff a b) : expr_scope.
Notation "a * b" := (pyo.Prod a b) : expr_scope.
Notation "a / b" := (pyo.Quot a b) : expr_scope.
Notation "a ** b" := (pyo.Pow a b)
  (at level 30, right associativity) : expr_scope.
Notation "a == b" := (pyo.Equality a b) (at level 70, no associativity) : expr_scope.

(* ===================================================================== *)
(** * costing/units/lt_med_surrogate.py                                  *)
(* ===================================================================== *)

Module lt_med_surrogate.
Import pyunits pyo.

(** A [pyo.Var] as the source declares it: not fixed, and with
    [bounds=(0, None)] or no bounds at all. *)
Definition Var_bounded (init : Q) (u : pint_unit) (d : string) : Var :=
  mkVar init u (Some 0%Q, None) d false.
Definition Var_free (init : Q) (u : pint_unit) (d : string) : Var :=
  mkVar init u (None, None) d false.

(** The declarations of [build_lt_med_surrogate_cost_param_block], in
    source order. *)
Definition param_decls : list (string * Var) :=
  [ ("cost_fraction_evaporator",
      Var_bounded 0.4 dimensionless "Cost fraction of the evaporator");
    ("cost_fraction_maintenance",
      Var_bounded 0.02 dimensionless
        "Fraction of capital cost for maintenance");
    ("cost_fraction_insurance",
      Var_bounded 0.005 dimensionless
        "Fraction of capital cost for insurance");
    ("cost_storage_per_kwh",
      Var_bounded 26 (base_currency / kWh)%unit
        "Cost of thermal storage per kWh");
    ("cost_chemicals_per_vol_dist",
      Var_bounded 0.04 (base_currency / m ** 3)%unit
        "Cost of chemicals per m3 distillate");
    ("cost_labor_per_vol_dist",
      Var_bounded 0.033 (base_currency / m ** 3)%unit
        "Cost of labor per m3 distillate");
    ("cost_misc_per_vol_dist",
      Var_bounded 0.033 (base_currency / m ** 3)%unit
        "Cost of labor per m3 distillate");
    ("cost_disposal_per_vol_brine",
      Var_bounded 0.02 (base_currency / m ** 3)%unit
        "Cost of disposal per m3 brine");
    ("specific_electric_energy_consumption",
      Var_bounded 1.5 (kWh / m ** 3)%unit
        "Specific electric energy consumption");
    ("med_sys_A_coeff",
      Var_free 6291 dimensionless "LT-MED system capital A coeff");
    ("med_sys_B_coeff",
      Var_free (-0.135) dimensionless "LT-MED system capital B coeff");
    ("med_sys_C_coeff",
      Var_free 302.01 dimensionless "LT-MED system capital C coeff");
    ("med_sys_D_coeff",
      Var_free 0.8 dimensionless "LT-MED system capital D coeff") ].

Definition build_lt_med_surrogate_cost_param_block : block :=
  fix_all_vars (add_components ∅ param_decls).

(** Modelled from the spec: [make_capital_cost_var] of
    [watertap_contrib.seto.costing.util] is not among the sources.  The
    spec gives [capital_cost] in currency and says all cost variables
    carry non-negativity bounds. *)
Definition make_capital_cost_var (b : block) : block :=
  <["capital_cost" :=
      Var_bounded 100000 base_currency "Unit capital cost"]> b.

(** Modelled from the spec: [make_fixed_operating_cost_var] of
    [watertap_contrib.seto.costing.util] is not among the sources.  The
    spec gives [fixed_operating_cost] as a currency-per-year rate with a
    non-negativity bound. *)
Definition make_fixed_operating_cost_var (b : block) : block :=
  <["fixed_operating_cost" :=
      Var_bounded 100000 (base_currency / year)%unit
        "Unit fixed operating cost"]> b.

(** The four [pyo.Var]s that [cost_lt_med_surrogate] declares itself, in
    source order. *)
Definition blk_decls : list (string * Var) :=
  [ ("system_cost", Var_free 100 base_currency "MED system cost");
    ("heat_exchanger_specific_area",
      Var_free 100 (m ** 2 / (kg / s))%unit "Specific heat exchanger area");
    ("thermal_storage_capacity",
      Var_free 5 kWh "Thermal storage capacity");
    ("hours_thermal_storage",
      Var_free 5 hr "Hours of thermal storage required") ].

(** The variables of the costing block once [cost_lt_med_surrogate] has
    declared them. *)
Definition costing_vars : block :=
  add_components
    (make_fixed_operating_cost_var (make_capital_cost_var ∅)) blk_decls.

Record CostingBlock : Type := mkCostingBlock {
  vars : block;
  heat_exchanger_specific_area_constraint : constraint;
  thermal_storage_capacity_constraint : constraint;
  capacity : expr;
  annual_dist_production : expr;
  system_cost_constraint : constraint;
  capital_cost_constraint : constraint;
  fixed_operating_cost_constraint : constraint;
  heat_flow : expr;
  electricity_flow : expr;
  cost_flow : list (expr * string)
}.

(** The unit model and its property states are not part of this file:
    they are the argument. *)
Definition unit_model : Type := owner -> block.

Definition model_of (ext : unit_model) (b : block) : model :=
  fun o =>
    match o with
    | lt_med_params => build_lt_med_surrogate_cost_param_block
    | blk => b
    | _ => ext o
    end.

Definition p (attr : string) : expr := Ref lt_med_params attr.
Definition self (attr : string) : expr := Ref blk attr.

(** The first and second term of the right-hand side of
    [system_cost_constraint]. *)
Definition system_cost_term1 (capacity : expr) : expr :=
  ((p "med_sys_A_coeff" * capacity ** p "med_sys_B_coeff")
   * (Num 1 - p "cost_fraction_evaporator"))%expr.

Definition system_cost_term2 : expr :=
  (p "cost_fraction_evaporator"
   * ((self "heat_exchanger_specific_area" / p "med_sys_C_coeff")
      ** p "med_sys_D_coeff"))%expr.

Definition cost_lt_med_surrogate (ext : unit_model) : option CostingBlock :=
  let b := costing_vars in
  let M := model_of ext b in
  specific_area ← getattr M lt_med "specific_area";
  dens_mass ← getattr M feed "dens_mass_phase[Liq]";
  hx_area ← convert M (specific_area / dens_mass)%expr
                      ((m ** 2 * s) / kg)%unit;
  thermal_power ← getattr M lt_med "thermal_power_requirement";
  dist_flow ← getattr M dist "flow_vol_phase[Liq]";
  capacity ← convert M dist_flow (m ** 3 / day)%unit;
  annual_dist_production ← convert M dist_flow (m ** 3 / year)%unit;
  brine_flow ← getattr M brine "flow_vol_phase[Liq]";
  annual_brine ← convert M brine_flow (m ** 3 / year)%unit;
  spec_thermal ← getattr M lt_med "spec_thermal_consumption";
  capacity_hr ← convert M capacity (m ** 3 / hr)%unit;
  let heat_flow := (spec_thermal * capacity_hr)%expr in
  let electricity_flow :=
    (p "specific_electric_energy_consumption" * capacity_hr)%expr in
  Some {|
    vars := b;
    heat_exchanger_specific_area_constraint :=
      (self "heat_exchanger_specific_area" == hx_area)%expr;
    thermal_storage_capacity_constraint :=
      (self "thermal_storage_capacity"
       == thermal_power * self "hours_thermal_storage")%expr;
    capacity := capacity;
    annual_dist_production := annual_dist_production;
    system_cost_constraint :=
      (self "system_cost"
       == system_cost_term1 capacity + system_cost_term2)%expr;
    capital_cost_constraint :=
      (self "capital_cost"
       == self "system_cost" * capacity
          + p "cost_storage_per_kwh" * self "thermal_storage_capacity")%expr;
    fixed_operating_cost_constraint :=
      (self "fixed_operating_cost"
       == annual_dist_production
          * (p "cost_chemicals_per_vol_dist"
             + p "cost_labor_per_vol_dist"
             + p "cost_misc_per_vol_dist")
          + self "system_cost"
            * (p "cost_fraction_maintenance" + p "cost_fraction_insurance")
          + annual_brine * p "cost_disposal_per_vol_brine")%expr;
    heat_flow := heat_flow;
    electricity_flow := electricity_flow;
    cost_flow := [(heat_flow, "heat"); (electricity_flow, "electricity")]
  |}.

(** A representative unit model: volumetric flows in m^3/s, density in
    kg/m^3, specific area in m^2 per m^3/day, thermal power in kW and
    specific thermal consumption in kWh/m^3. *)
Definition example_unit_model : unit_model :=
  fun o =>
    match o with
    | lt_med =>
        add_components ∅
          [ ("specific_area",
              Var_bounded 2 (m ** 2 / (m ** 3 / day))%unit "Specific area");
            ("thermal_power_requirement",
              Var_bounded 25000 kW "Thermal power requirement");
            ("spec_thermal_consumption",
              Var_bounded 65 (kWh / m ** 3)%unit
                "Specific thermal power consumption") ]
    | feed =>
        add_components ∅
          [ ("dens_mass_phase[Liq]",
              Var_bounded 1000 (kg / m ** 3)%unit "Mass density") ]
    | dist | brine =>
        add_components ∅
          [ ("flow_vol_phase[Liq]",
              Var_bounded 0.001 (m ** 3 / s)%unit "Volumetric flow rate") ]
    | _ => ∅
    end.

(** Two unit models with the same attributes in the same units; the
    values, bounds and documentation of the attributes may differ. *)
Definition same_interface (ext ext' : unit_model) : Prop :=
  forall o attr, units <$> (ext o !! attr) = units <$> (ext' o !! attr).

(** Expressions without a power. *)
Fixpoint no_pow (e : expr) : bool :=
  match e with
  | Num _ | UnitLeaf _ | Ref _ _ => true
  | Sum a b | Diff a b | Prod a b | Quot a b => no_pow a && no_pow b
  | Pow _ _ => false
  end.

(** The parameters hold the values the Parameter Block fixed them at. *)
Definition at_defaults (rho : valuation) : Prop :=
  forall attr v,
    build_lt_med_surrogate_cost_param_block !! attr = Some v ->
    rho lt_med_params attr = Q2R (initialize v).

(** The two-regime blend in the words of the specification:
    [A * capacity^B * (1 - f_evap) + f_evap * (hx_area / C)^D]. *)
Definition spec_system_cost (A B C D f_evap capacity hx_area : R) : R :=
  (A * Rpower capacity B * (1 - f_evap)
   + f_evap * Rpower (hx_area / C) D)%R.

(** A valuation for the representative unit model: parameters and
    variables at their initial values, distillate flow as given (in
    m^3/s). *)
Definition example_valuation (dist_flow : R) : valuation :=
  fun o attr =>
    match o with
    | dist => dist_flow
    | _ =>
        match model_of example_unit_model costing_vars o !! attr with
        | Some v => Q2R (initialize v)
        | None => 0%R
        end
    end.

End lt_med_surrogate.



(* ===================================================================== *)
(** * solar_models/surrogate/trough/trough_surrogate.py                  *)
(* ===================================================================== *)

Module trough_surrogate.
Import pyunits pyo.

(** One row of the performance table. *)
Record Sample : Type := mkSample {
  row_heat_load : Q;
  row_hours_storage : Q;
  row_heat_annual : Q;
  row_electricity_annual : Q
}.

(** A [pandas.DataFrame], as its rows in order. *)
Definition DataFrame : Type := list Sample.

Inductive exn : Type :=
| AttributeError (attr : string)
| TypeError
| FileNotFoundError
| IsADirectoryError
| UnpicklingError
| JSONDecodeError
| ValueError
| IndexError
| InconsistentUnitsError
| LibraryError (msg : string).

(** [sys.stdout] is the stream the process started with or one of the
    [StringIO] buffers created since, numbered in creation order. *)
Inductive stream : Type :=
| console
| StringIO_obj (id : nat).

(** [PysmoRBFTrainer(input_labels, output_labels, training_dataframe)]
    with its three [config] options. *)
Record PysmoRBFTrainer : Type := mkTrainer {
  trainer_input_labels : list string;
  trainer_output_labels : list string;
  training_dataframe : DataFrame;
  basis_function : string;
  solution_method : string;
  regularization : bool
}.

Section with_libraries.

(** What [train_surrogate] returns, and the state of numpy's global
    generator: both live in libraries outside these sources. *)
Context {Trained RandomState : Type}.

(** [os.path.dirname(__file__)] *)
Variable dirname : string.

(** [PysmoSurrogate(trained, input_labels, output_labels,
    input_bounds)] *)
Record PysmoSurrogate : Type := mkSurrogate {
  trained : Trained;
  surrogate_input_labels : list string;
  surrogate_output_labels : list string;
  surrogate_input_bounds : gmap string (Q * Q)
}.

Inductive content : Type :=
| Pickle (df : DataFrame)
| Json (sur : PysmoSurrogate)
| Blob.

Inductive node : Type :=
| Dir
| File (c : content).

(** The file system, keyed by the path as the program spells it; two
    spellings of one path are two keys. *)
Abbreviation files := (gmap string node).

(** Attribute values of the [TroughSurrogateData] instance. *)
Inductive value : Type :=
| Component (v : Var)
| Constr (c : constraint)
| Suffix (sf : gmap string Q)
| Str (str : string)
| Int (n : nat)
| Float (q : Q)
| Names (l : list string)
| Frame (df : DataFrame)
| Surrogate (sur : PysmoSurrogate)
| SurrogateBlock
| Trainer (t : PysmoRBFTrainer)
| TrainedModel (t : Trained)
| Bounds (b : gmap string (Q * Q)).

(** The part of the process a method can see: the file system,
    [sys.stdout], the number of [StringIO] buffers made so far, numpy's
    global generator and the attributes of [self]. *)
Record world : Type := mkWorld {
  fs : files;
  sys_stdout : stream;
  streams : nat;
  np_random : RandomState;
  self : gmap string value
}.

(** The library calls whose code is outside these sources. *)
Class Libraries : Type := {
  (* numpy: a random permutation of [range(n)] from the generator *)
  permutation : RandomState -> nat -> list nat * RandomState;
  (* idaes: split_training_validation(dataframe, fraction, seed) *)
  split_training_validation :
    DataFrame -> Q -> nat -> (DataFrame * DataFrame) + exn;
  (* idaes: PysmoRBFTrainer.train_surrogate(), which may write files *)
  train_surrogate : PysmoRBFTrainer -> files -> (Trained + exn) * files;
  (* idaes: SurrogateBlock.build_model(surrogate, input_vars, output_vars) *)
  build_model :
    PysmoSurrogate -> list string -> list string -> unit + exn
}.

Context {L : Libraries}.

(** ** State and exceptions *)

Definition M (A : Type) : Type := world -> (A + exn) * world.

#[global] Instance M_ret : MRet M := fun A a w => (inl a, w).
#[global] Instance M_bind : MBind M := fun A B k c w =>
  match c w with
  | (inl a, w') => k a w'
  | (inr e, w') => (inr e, w')
  end.

Definition raise {A} (e : exn) : M A := fun w => (inr e, w).

(** [try: c except ...: h e] with a handler for every exception. *)
Definition try_except {A} (c : M A) (h : exn -> M A) : M A := fun w =>
  match c w with
  | (inl a, w') => (inl a, w')
  | (inr e, w') => h e w'
  end.

Definition lift {A} (r : A + exn) : M A := fun w => (r, w).

Definition set_fs (f : files) (w : world) : world :=
  mkWorld f (sys_stdout w) (streams w) (np_random w) (self w).
Definition set_stdout (o : stream) (w : world) : world :=
  mkWorld (fs w) o (streams w) (np_random w) (self w).
Definition set_streams (n : nat) (w : world) : world :=
  mkWorld (fs w) (sys_stdout w) n (np_random w) (self w).
Definition set_np_random (g : RandomState) (w : world) : world :=
  mkWorld (fs w) (sys_stdout w) (streams w) g (self w).
Definition set_self (o : gmap string value) (w : world) : world :=
  mkWorld (fs w) (sys_stdout w) (streams w) (np_random w) o.

(** [self.attr = v] and [self.attr] *)
Definition setattr (attr : string) (v : value) : M unit := fun w =>
  (inl tt, set_self (<[attr := v]> (self w)) w).

Definition getattr (attr : string) : M value := fun w =>
  match self w !! attr with
  | Some v => (inl v, w)
  | None => (inr (AttributeError attr), w)
  end.

Definition get_names (attr : string) : M (list string) :=
  v ← getattr attr;
  match v with Names l => mret l | _ => raise TypeError end.
Definition get_frame (attr : string) : M DataFrame :=
  v ← getattr attr;
  match v with Frame df => mret df | _ => raise TypeError end.
Definition get_str (attr : string) : M string :=
  v ← getattr attr;
  match v with Str x => mret x | _ => raise TypeError end.
Definition get_int (attr : string) : M nat :=
  v ← getattr attr;
  match v with Int n => mret n | _ => raise TypeError end.
Definition get_float (attr : string) : M Q :=
  v ← getattr attr;
  match v with Float q => mret q | _ => raise TypeError end.

(** [StringIO()], [sys.stdout] and [sys.stdout = o] *)
Definition StringIO : M stream := fun w =>
  (inl (StringIO_obj (streams w)), set_streams (S (streams w)) w).
Definition get_stdout : M stream := fun w => (inl (sys_stdout w), w).
Definition put_stdout (o : stream) : M unit := fun w =>
  (inl tt, set_stdout o w).

(** ** Files *)

(** [os.remove(path)] *)
Definition os_remove (path : string) : M unit := fun w =>
  match fs w !! path with
  | None => (inr FileNotFoundError, w)
  | Some Dir => (inr IsADirectoryError, w)
  | Some (File _) => (inl tt, set_fs (delete path (fs w)) w)
  end.

(** [pd.read_pickle(path)] *)
Definition read_pickle (path : string) : M DataFrame := fun w =>
  match fs w !! path with
  | None => (inr FileNotFoundError, w)
  | Some Dir => (inr IsADirectoryError, w)
  | Some (File (Pickle df)) => (inl df, w)
  | Some (File _) => (inr UnpicklingError, w)
  end.

(** [PysmoSurrogate.load_from_file(path)] *)
Definition load_from_file (path : string) : M PysmoSurrogate := fun w =>
  match fs w !! path with
  | None => (inr FileNotFoundError, w)
  | Some Dir => (inr IsADirectoryError, w)
  | Some (File (Json sur)) => (inl sur, w)
  | Some (File _) => (inr JSONDecodeError, w)
  end.

(** [surrogate.save_to_file(path, overwrite=True)] *)
Definition save_to_file (sur : PysmoSurrogate) (path : string) : M unit :=
  fun w =>
    match fs w !! path with
    | Some Dir => (inr IsADirectoryError, w)
    | _ => (inl tt, set_fs (<[path := File (Json sur)]> (fs w)) w)
    end.

(** [os.path.join(dir, name)] *)
Definition path_join (dir name : string) : string := dir ++ "/" ++ name.

(** ** [build] *)

(** Modelled from the spec: [SolarEnergyBaseData.build] of
    [watertap_contrib.seto.core] is not among the sources.  The spec has
    the surrounding unit model supply the rate variables [heat] and
    [electricity]. *)
Definition super_build : M unit :=
  setattr "heat" (Component (mkVar 0 kW (None, None) "Heat rate" false));;
  setattr "electricity"
    (Component (mkVar 0 kW (None, None) "Electricity rate" false)).

(** [pyunits.convert(1 * pyunits.year, to_units=pyunits.hour)] *)
Definition hours_per_year : M expr :=
  match convert (fun _ => ∅) (Num 1 * UnitLeaf year)%expr hr with
  | Some e => mret e
  | None => raise InconsistentUnitsError
  end.

(** The two surrogate inputs as [build] declares them. *)
Definition heat_load_var : Var :=
  mkVar 1000 MW (Some 100%Q, Some 1000%Q)
        "Rated plant heat capacity in MWt" false.

Definition hours_storage_var : Var :=
  mkVar 20 hr (Some 0%Q, Some 26%Q) "Rated plant hours of storage" false.

Definition build : M unit :=
  super_build;;
  setattr "scaling_factor" (Suffix ∅);;
  setattr "_tech_type" (Str "trough");;
  setattr "heat_load" (Component heat_load_var);;
  setattr "hours_storage" (Component hours_storage_var);;
  setattr "heat_annual"
    (Component (mkVar 1000 kWh (None, None)
                  "Annual heat generated by trough" false));;
  setattr "electricity_annual"
    (Component (mkVar 20 kWh (None, None)
                  "Annual electricity consumed by trough" false));;
  stream ← StringIO;
  oldstdout ← get_stdout;
  put_stdout stream;;
  setattr "surrogate_inputs" (Names ["heat_load"; "hours_storage"]);;
  setattr "surrogate_outputs" (Names ["heat_annual"; "electricity_annual"]);;
  setattr "input_labels" (Names ["heat_load"; "hours_storage"]);;
  setattr "output_labels" (Names ["heat_annual"; "electricity_annual"]);;
  setattr "surrogate_file"
    (Str (path_join dirname "trough_surrogate.json"));;
  setattr "surrogate_blk" SurrogateBlock;;
  surrogate_file ← get_str "surrogate_file";
  surrogate ← load_from_file surrogate_file;
  setattr "surrogate" (Surrogate surrogate);;
  surrogate_inputs ← get_names "surrogate_inputs";
  surrogate_outputs ← get_names "surrogate_outputs";
  lift (build_model surrogate surrogate_inputs surrogate_outputs);;
  getattr "heat";;
  hours ← hours_per_year;
  setattr "heat_constraint"
    (Constr (Ref trough "heat_annual" == Ref trough "heat" * hours)%expr);;
  getattr "electricity";;
  hours ← hours_per_year;
  setattr "electricity_constraint"
    (Constr (Ref trough "electricity_annual"
             == Ref trough "electricity" * hours)%expr);;
  put_stdout oldstdout;;
  setattr "dataset_filename"
    (Str (path_join dirname "data/trough_data.pkl"));;
  setattr "n_samples" (Int 100);;
  setattr "training_fraction" (Float 0.8).

(** ** [calculate_scaling_factors] *)

(** [iscale.get_scaling_factor(var, default=..)] and
    [iscale.set_scaling_factor(var, sf)] on the [scaling_factor] suffix,
    keyed by the variable. *)
Definition get_scaling_factor (suffix : gmap string Q) (var : string)
    (default : option Q) : option Q :=
  match suffix !! var with
  | Some sf => Some sf
  | None => default
  end.

Definition set_scaling_factor (suffix : gmap string Q) (var : string)
    (sf : Q) : gmap string Q :=
  <[var := sf]> suffix.

(** One [if iscale.get_scaling_factor(var) is None: ...] block. *)
Definition scale_if_unset (var : string) (default : Q)
    (suffix : gmap string Q) : gmap string Q :=
  match get_scaling_factor suffix var None with
  | None =>
      match get_scaling_factor suffix var (Some default) with
      | Some sf => set_scaling_factor suffix var sf
      | None => suffix
      end
  | Some _ => suffix
  end.

(** The method reads and writes nothing but the suffix. *)
Definition calculate_scaling_factors (suffix : gmap string Q)
  : gmap string Q :=
  let suffix := scale_if_unset "hours_storage" 1 suffix in
  let suffix := scale_if_unset "heat_load" 0.01 suffix in
  let suffix := scale_if_unset "heat_annual" 0.0001 suffix in
  let suffix := scale_if_unset "heat" 0.0001 suffix in
  let suffix := scale_if_unset "electricity_annual" 0.001 suffix in
  scale_if_unset "electricity" 0.001 suffix.

(** The default of each variable, as the six blocks above give it. *)
Definition default_scaling_factor (var : string) : option Q :=
  if decide ("hours_storage" = var) then Some 1%Q
  else if decide ("heat_load" = var) then Some 0.01%Q
  else if decide ("heat_annual" = var) then Some 0.0001%Q
  else if decide ("heat" = var) then Some 0.0001%Q
  else if decide ("electricity_annual" = var) then Some 0.001%Q
  else if decide ("electricity" = var) then Some 0.001%Q
  else None.

(** ** [_get_surrogate_data] *)

(** [df.sample(n=n)]: [n] rows without replacement, the first [n]
    positions of a permutation drawn from numpy's global generator; no
    [random_state] is passed. *)
Definition sample (df : DataFrame) (n : nat) : M DataFrame := fun w =>
  if decide (length df < n)%nat then (inr ValueError, w)
  else
    let '(perm, g) := permutation (np_random w) (length df) in
    (inl (omap (fun i => df !! i) (take n perm)), set_np_random g w).

Definition _get_surrogate_data (return_data : bool)
  : M (option (DataFrame * DataFrame)) :=
  dataset_filename ← get_str "dataset_filename";
  pickle_df ← read_pickle dataset_filename;
  setattr "pickle_df" (Frame pickle_df);;
  n_samples ← get_int "n_samples";
  data ← sample pickle_df n_samples;
  setattr "data" (Frame data);;
  training_fraction ← get_float "training_fraction";
  parts ← lift (split_training_validation data training_fraction
                  (length data));
  setattr "data_training" (Frame parts.1);;
  setattr "data_validation" (Frame parts.2);;
  if return_data then mret (Some parts) else mret None.

(** ** [_create_rbf_surrogate] *)

(** [try: os.remove("solution.pickle")] with its two handlers. *)
Definition remove_solution_pickle : M unit :=
  try_except (os_remove "solution.pickle")
    (fun e =>
       match e with
       | FileNotFoundError => mret tt
       | _ => raise e
       end).

(** [{labels[i]: (xmin[i], xmax[i]) for i in range(len(labels))}] *)
Fixpoint dict_of_bounds (range : list nat) (labels : list string)
    (xmin xmax : list Q) (acc : gmap string (Q * Q))
  : gmap string (Q * Q) + exn :=
  match range with
  | [] => inl acc
  | i :: rest =>
      match labels !! i, xmin !! i, xmax !! i with
      | Some k, Some lo, Some hi =>
          dict_of_bounds rest labels xmin xmax (<[k := (lo, hi)]> acc)
      | _, _, _ => inr IndexError
      end
  end.

(** [self.trainer.train_surrogate()], which works on the file system. *)
Definition call_train_surrogate (t : PysmoRBFTrainer) : M Trained :=
  fun w =>
    let '(r, f) := train_surrogate t (fs w) in (r, set_fs f w).

Definition _create_rbf_surrogate (data_training : option DataFrame)
    (output_filename : option string) : M unit :=
  match data_training with
  | None => _get_surrogate_data false;; mret tt
  | Some df => setattr "data_training" (Frame df)
  end;;
  stream ← StringIO;
  oldstdout ← get_stdout;
  put_stdout stream;;
  input_labels ← get_names "input_labels";
  output_labels ← get_names "output_labels";
  training ← get_frame "data_training";
  let trainer :=
    mkTrainer input_labels output_labels training
              "gaussian" "algebraic" true in
  setattr "trainer" (Trainer trainer);;
  rbf_train ← call_train_surrogate trainer;
  setattr "rbf_train" (TrainedModel rbf_train);;
  remove_solution_pickle;;
  let xmin := [100; 0]%Q in
  let xmax := [1000; 26]%Q in
  input_labels ← get_names "input_labels";
  input_bounds ← lift (dict_of_bounds (seq 0 (length input_labels))
                         input_labels xmin xmax ∅);
  setattr "input_bounds" (Bounds input_bounds);;
  let rbf_surr :=
    mkSurrogate rbf_train input_labels output_labels input_bounds in
  setattr "rbf_surr" (Surrogate rbf_surr);;
  match output_filename with
  | Some path => save_to_file rbf_surr path
  | None => mret tt
  end;;
  put_stdout oldstdout.

(** ** Specifications of computations *)

(** A normal return from [w] with result [a] in [w'] satisfies [Q]. *)
Definition hoare {A} (P : world -> Prop) (c : M A)
    (Q : A -> world -> Prop) : Prop :=
  forall w a w', P w -> c w = (inl a, w') -> Q a w'.


(** [c] keeps [I], however it ends. *)
Definition stable {A} (I : world -> Prop) (c : M A) : Prop :=
  forall w r w', I w -> c w = (r, w') -> I w'.


(** From every world that satisfies [P], [c] returns normally, with a
    result and in a world that satisfy [Q]. *)
Definition returns {A} (P : world -> Prop) (c : M A)
    (Q : A -> world -> Prop) : Prop :=
  forall w, P w -> exists a w', c w = (inl a, w') /\ Q a w'.

Definition stdout_is (o : stream) (n : nat) (w : world) : Prop :=
  sys_stdout w = o /\ streams w = n.


(** What a computation leaves alone. *)
Definition keeps {X A} (proj : world -> X) (c : M A) : Prop :=
  forall w r w', c w = (r, w') -> proj w' = proj w.

Definition has_attr (attr : string) (v : value) (w : world) : Prop :=
  self w !! attr = Some v.

(** What [build] leaves in [self] for the surrogate inputs. *)
Definition built (w : world) : Prop :=
  has_attr "input_labels" (Names ["heat_load"; "hours_storage"]) w /\
  has_attr "heat_load" (Component heat_load_var) w /\
  has_attr "hours_storage" (Component hours_storage_var) w.

(** The dictionary that [xmin, xmax = [100, 0], [1000, 26]] gives for
    the two input labels. *)
Definition trained_bounds : gmap string (Q * Q) :=
  <["hours_storage" := (0, 26)%Q]> (<["heat_load" := (100, 1000)%Q]> ∅).

Definition solution_absent (w : world) : Prop :=
  fs w !! "solution.pickle" = None.

(** What the steps of [_create_rbf_surrogate] that follow the first find
    in place: the files, and on [self] the labels and the training
    frame. *)
Definition ready (f : files) (il ol : list string) (df : DataFrame)
    (w : world) : Prop :=
  fs w = f /\
  has_attr "input_labels" (Names il) w /\
  has_attr "output_labels" (Names ol) w /\
  has_attr "data_training" (Frame df) w.


(** A point within the bounds of the variables, and within the input
    domain of a surrogate. *)
Definition within_var_bounds (x : string -> Q) (w : world)
    (names : list string) : Prop :=
  forall name v lo hi,
    In name names ->
    self w !! name = Some (Component v) ->
    bounds v = (Some lo, Some hi) ->
    (lo <= x name /\ x name <= hi)%Q.

Definition within_input_domain (x : string -> Q) (sur : PysmoSurrogate)
  : Prop :=
  forall name lo hi,
    surrogate_input_bounds sur !! name = Some (lo, hi) ->
    (lo <= x name /\ x name <= hi)%Q.

End with_libraries.

Arguments PysmoSurrogate : clear implicits.
Arguments content : clear implicits.
Arguments node : clear implicits.
Arguments value : clear implicits.
Arguments world : clear implicits.
Arguments Libraries : clear implicits.

(** ** A small instance to run the model on *)

(** A stand-in for numpy's generator: the state is a counter and the
    permutation of [range(n)] it yields is the rotation by that counter. *)
Definition toy_permutation (g n : nat) : list nat * nat :=
  (rotate g (seq 0 n), S g).

(** Stand-ins for the idaes calls: the split cuts the frame at
    [floor (fraction * len)], training returns the number of rows it saw
    and leaves its [solution.pickle] behind. *)
Definition toy_split (df : DataFrame) (fraction : Q) (seed : nat)
  : (DataFrame * DataFrame) + exn :=
  let x := (fraction * inject_Z (Z.of_nat (length df)))%Q in
  let k := Z.to_nat (Qnum x / Zpos (Qden x)) in
  inl (take k df, drop k df).

Definition toy_train (t : PysmoRBFTrainer) (f : gmap string (node nat))
  : (nat + exn) * gmap string (node nat) :=
  match training_dataframe t with
  | [] => (inr (LibraryError "empty training set"), f)
  | _ => (inl (length (training_dataframe t)),
          <["solution.pickle" := File Blob]> f)
  end.

Definition toy_libraries : Libraries nat nat := {|
  permutation := toy_permutation;
  split_training_validation := toy_split;
  train_surrogate := toy_train;
  build_model := fun _ _ _ => inl tt
|}.

Definition example_row (n : Z) : Sample :=
  mkSample (inject_Z n) 10 (inject_Z (n * 1000)) (inject_Z (n * 20)).

Definition example_dataset : DataFrame :=
  map example_row [100; 200; 300; 400; 500; 600]%Z.

Definition example_artifact : PysmoSurrogate nat :=
  mkSurrogate 0%nat ["heat_load"; "hours_storage"]
              ["heat_annual"; "electricity_annual"]
              (<["heat_load" := (100, 1000)%Q]>
                 (<["hours_storage" := (0, 26)%Q]> ∅)).

(** A process whose package directory holds the dataset and a surrogate
    file, with the generator in state [g]. *)
Definition example_world (g : nat) : world nat nat :=
  mkWorld
    (<["/pkg/trough_surrogate.json" := File (Json example_artifact)]>
       (<["/pkg/data/trough_data.pkl" := File (Pickle example_dataset)]> ∅))
    console 0 g ∅.


(** The unit after [build], asked for four samples. *)
Definition example_unit : world nat nat :=
  let w := snd (build (L := toy_libraries) "/pkg" (example_world 0)) in
  set_self (<["n_samples" := Int 4]> (self w)) w.

(** The same unit and files, with the generator in state [g]. *)
Definition example_built (g : nat) : world nat nat :=
  set_np_random g example_unit.

(** The same unit in a directory where an earlier run has left its
    [solution.pickle]. *)
Definition example_stale : world nat nat :=
  set_fs (<["solution.pickle" := File Blob]> (fs (example_built 0)))
         (example_built 0).

(** Libraries whose training writes no file at all. *)
Definition quiet_train (t : PysmoRBFTrainer) (f : gmap string (node nat))
  : (nat + exn) * gmap string (node nat) :=
  (inl (length (training_dataframe t)), f).

Definition quiet_libraries : Libraries nat nat := {|
  permutation := toy_permutation;
  split_training_validation := toy_split;
  train_surrogate := quiet_train;
  build_model := fun _ _ _ => inl tt
|}.

End trough_surrogate.

(* ===================================================================== *)
(** * Facts about units                                                   *)
(* ===================================================================== *)

Module units_facts.
Import pyunits pyo.

Lemma dimensionality_umul a b d :
  (dimensionality (umul a b) d == dimensionality a d + dimensionality b d)%Q.
Proof.
  unfold umul, dimensionality.
  induction a as [|f a IH]; simpl.
  - ring.
  - rewrite IH. ring.
Qed.

Lemma dimensionality_neg b d :
  (dimensionality (map (fun f => (fst f, (- snd f)%Q)) b) d
   == - dimensionality b d)%Q.
Proof.
  unfold dimensionality.
  induction b as [|f b IH]; simpl.
  - ring.
  - rewrite IH. ring.
Qed.

Lemma dimensionality_udiv a b d :
  (dimensionality (udiv a b) d == dimensionality a d - dimensionality b d)%Q.
Proof.
  unfold udiv. rewrite (dimensionality_umul a _ d), dimensionality_neg. ring.
Qed.

Lemma dimensionality_upow a p d :
  (dimensionality (upow a p) d == dimensionality a d * p)%Q.
Proof.
  unfold upow, dimensionality.
  induction a as [|f a IH]; simpl.
  - ring.
  - rewrite IH. ring.
Qed.

Lemma same_dimension_spec a b :
  same_dimension a b = true <->
  forall d, (dimensionality a d == dimensionality b d)%Q.
Proof.
  unfold same_dimension, all_dims. simpl.
  rewrite !andb_true_iff, !Qeq_bool_iff. split.
  - intros (H1 & H2 & H3 & H4 & _) []; assumption.
  - intros H. repeat split; apply H.
Qed.

Lemma same_dimension_false a b d :
  ~ (dimensionality a d == dimensionality b d)%Q ->
  same_dimension a b = false.
Proof.
  intros H. destruct (same_dimension a b) eqn:E; [|reflexivity].
  exfalso. apply H. apply same_dimension_spec. exact E.
Qed.

(** The dimensionality is determined by the exponents of the named
    units. *)
Lemma dimensionality_exponent u d :
  (dimensionality u d ==
   fold_right (fun n acc => exponent u n * dim_of_named n d + acc) 0
              all_named)%Q.
Proof.
  induction u as [|[k e] u IH].
  - simpl. ring.
  - change (dimensionality ((k, e) :: u) d)
      with (e * dim_of_named k d + dimensionality u d)%Q.
    rewrite IH. destruct k; simpl; ring.
Qed.

Lemma unit_eqb_same_dimension a b :
  unit_eqb a b = true -> same_dimension a b = true.
Proof.
  unfold unit_eqb, all_named. simpl.
  rewrite !andb_true_iff, !Qeq_bool_iff.
  intros (H1 & H2 & H3 & H4 & H5 & H6 & H7 & H8 & H9 & H10 & _).
  apply same_dimension_spec. intros d.
  rewrite (dimensionality_exponent a), (dimensionality_exponent b).
  simpl. rewrite H1, H2, H3, H4, H5, H6, H7, H8, H9, H10. reflexivity.
Qed.

(** A conversion that succeeds yields an expression in the dimension of
    the target units. *)
Lemma convert_units M src to_units e :
  convert M src to_units = Some e ->
  exists u, get_units M e = Some u /\
            forall d, (dimensionality u d == dimensionality to_units d)%Q.
Proof.
  unfold convert. intros H.
  destruct (get_units M src) as [su|] eqn:Esu; [|discriminate H].
  cbn [mbind option_bind] in H.
  destruct (unit_eqb su to_units) eqn:Eeq.
  - injection H as <-. exists su. split; [exact Esu|].
    apply same_dimension_spec, unit_eqb_same_dimension, Eeq.
  - destruct (same_dimension su to_units) eqn:Esd; [|discriminate H].
    cbn [negb] in H.
    destruct (base_factor su) as [fsu|]; [|discriminate H].
    destruct (base_factor to_units) as [fto|]; [|discriminate H].
    cbn [mbind option_bind] in H. injection H as <-.
    eexists. split.
    + cbn [get_units]. rewrite Esu. reflexivity.
    + intros d. rewrite !dimensionality_umul, dimensionality_udiv.
      change (dimensionality dimensionless d) with 0%Q. ring.
Qed.

End units_facts.

(* ===================================================================== *)
(** * The LT-MED costing block                                            *)
(* ===================================================================== *)

Module lt_med_facts.
Import pyunits pyo lt_med_surrogate units_facts.

Lemma getattr_Some M o attr e :
  getattr M o attr = Some e -> e = Ref o attr /\ is_Some (M o !! attr).
Proof.
  unfold getattr. destruct (M o !! attr) eqn:E; [|discriminate].
  intros [= <-]. split; [reflexivity|eauto].
Qed.

(** What a successful run of [cost_lt_med_surrogate] has built. *)
Lemma cost_lt_med_surrogate_inv ext cb :
  cost_lt_med_surrogate ext = Some cb ->
  let M := model_of ext costing_vars in
  vars cb = costing_vars /\
  (exists hx_area,
      convert M (Ref lt_med "specific_area" / Ref feed "dens_mass_phase[Liq]")
              ((m ** 2 * s) / kg)%unit = Some hx_area /\
      heat_exchanger_specific_area_constraint cb
      = (self "heat_exchanger_specific_area" == hx_area)%expr) /\
  (is_Some (ext lt_med !! "thermal_power_requirement") /\
   thermal_storage_capacity_constraint cb
   = (self "thermal_storage_capacity"
      == Ref lt_med "thermal_power_requirement"
         * self "hours_thermal_storage")%expr) /\
  convert M (Ref dist "flow_vol_phase[Liq]") (m ** 3 / day)%unit
  = Some (capacity cb) /\
  convert M (Ref dist "flow_vol_phase[Liq]") (m ** 3 / year)%unit
  = Some (annual_dist_production cb) /\
  system_cost_constraint cb
  = (self "system_cost"
     == system_cost_term1 (capacity cb) + system_cost_term2)%expr /\
  capital_cost_constraint cb
  = (self "capital_cost"
     == self "system_cost" * capacity cb
        + p "cost_storage_per_kwh" * self "thermal_storage_capacity")%expr /\
  (exists annual_brine,
      convert M (Ref brine "flow_vol_phase[Liq]") (m ** 3 / year)%unit
      = Some annual_brine /\
      fixed_operating_cost_constraint cb
      = (self "fixed_operating_cost"
         == annual_dist_production cb
            * (p "cost_chemicals_per_vol_dist"
               + p "cost_labor_per_vol_dist"
               + p "cost_misc_per_vol_dist")
            + self "system_cost"
              * (p "cost_fraction_maintenance" + p "cost_fraction_insurance")
            + annual_brine * p "cost_disposal_per_vol_brine")%expr).
Proof.
  unfold cost_lt_med_surrogate. intros H.
  repeat match type of H with
         | mbind _ ?x = Some _ =>
             let E := fresh "E" in
             destruct x eqn:E;
             [cbn [mbind option_bind] in H | discriminate H]
         end.
  repeat match goal with
         | E : getattr _ _ _ = Some _ |- _ =>
             apply getattr_Some in E; destruct E as [-> ?]
         end.
  injection H as <-. cbn -[costing_vars convert].
  repeat split; eauto.
Qed.

Lemma Q2R_1 : Q2R 1 = 1%R.
Proof. unfold Q2R. simpl. lra. Qed.

(** C5.  The equality installed as [system_cost_constraint] is exactly
    the two-regime blend of the specification,
    [system_cost = A * capacity^B * (1 - f_evap)
                   + f_evap * (heat_exchanger_specific_area / C)^D],
    with A, B, C, D and f_evap the Parameter Block's [med_sys_A_coeff],
    [med_sys_B_coeff], [med_sys_C_coeff], [med_sys_D_coeff] and
    [cost_fraction_evaporator], and capacity the distillate flow in
    m^3/day. *)
Theorem system_cost_constraint_is_blend ext cb (rho : valuation) :
  cost_lt_med_surrogate ext = Some cb ->
  satisfied rho (system_cost_constraint cb) <->
  rho blk "system_cost"
  = spec_system_cost
      (rho lt_med_params "med_sys_A_coeff")
      (rho lt_med_params "med_sys_B_coeff")
      (rho lt_med_params "med_sys_C_coeff")
      (rho lt_med_params "med_sys_D_coeff")
      (rho lt_med_params "cost_fraction_evaporator")
      (eval rho (capacity cb))
      (rho blk "heat_exchanger_specific_area").
Proof.
  intros H. apply cost_lt_med_surrogate_inv in H.
  destruct H as (_ & _ & _ & _ & _ & -> & _).
  unfold satisfied, spec_system_cost. cbn. rewrite Q2R_1. reflexivity.
Qed.

Lemma system_cost_constraint_is_blend_witness :
  exists cb,
    cost_lt_med_surrogate example_unit_model = Some cb /\
    (satisfied (example_valuation 1) (system_cost_constraint cb) <->
     example_valuation 1 blk "system_cost"
     = spec_system_cost
         (example_valuation 1 lt_med_params "med_sys_A_coeff")
         (example_valuation 1 lt_med_params "med_sys_B_coeff")
         (example_valuation 1 lt_med_params "med_sys_C_coeff")
         (example_valuation 1 lt_med_params "med_sys_D_coeff")
         (example_valuation 1 lt_med_params "cost_fraction_evaporator")
         (eval (example_valuation 1) (capacity cb))
         (example_valuation 1 blk "heat_exchanger_specific_area")).
Proof.
  eexists. split.
  - vm_compute. reflexivity.
  - apply (system_cost_constraint_is_blend example_unit_model).
    vm_compute. reflexivity.
Defined.

(** ** The first system-cost term *)

Lemma param_values rho :
  at_defaults rho ->
  rho lt_med_params "med_sys_A_coeff" = 6291%R /\
  rho lt_med_params "med_sys_B_coeff" = (-0.135)%R /\
  rho lt_med_params "med_sys_C_coeff" = 302.01%R /\
  rho lt_med_params "med_sys_D_coeff" = 0.8%R /\
  rho lt_med_params "cost_fraction_evaporator" = 0.4%R.
Proof.
  intros H. repeat split.
  all: erewrite H by (vm_compute; reflexivity).
  all: unfold Q2R; cbn; lra.
Qed.

Lemma eval_term1 rho capacity :
  at_defaults rho ->
  eval rho (system_cost_term1 capacity)
  = (6291 * Rpower (eval rho capacity) (-0.135) * (1 - 0.4))%R.
Proof.
  intros H. destruct (param_values rho H) as (HA & HB & _ & _ & Hf).
  cbn. rewrite HA, HB, Hf, Q2R_1. reflexivity.
Qed.

Lemma eval_term2 rho :
  at_defaults rho ->
  eval rho system_cost_term2
  = (0.4 * Rpower (rho blk "heat_exchanger_specific_area" / 302.01) 0.8)%R.
Proof.
  intros H. destruct (param_values rho H) as (_ & _ & HC & HD & Hf).
  cbn. rewrite HC, HD, Hf. reflexivity.
Qed.

(** A power with a negative exponent is strictly decreasing on the
    positive reals. *)
Lemma Rpower_neg_decreasing (b x y : R) :
  (b < 0)%R -> (0 < x)%R -> (x < y)%R -> (Rpower y b < Rpower x b)%R.
Proof.
  intros Hb Hx Hxy. unfold Rpower. apply exp_increasing.
  assert (ln x < ln y)%R by (apply ln_increasing; assumption).
  nra.
Qed.

(** ** Bounds on [1000 ^ (-0.135)]

    [1000 ^ (-27/200)] is the positive real whose 200th power is
    [1 / 1000^27], so a rational is below (above) it when its 200th power
    is: an integer comparison. *)

Lemma pow_lt_inv (x y : R) (n : nat) :
  (0 <= y)%R -> (x ^ n < y ^ n)%R -> (x < y)%R.
Proof.
  intros Hy H. apply Rnot_le_lt. intros Hle.
  apply (Rlt_not_le _ _ H). apply pow_incr. split; assumption.
Qed.

Lemma ratio_pow (a b : Z) (n : nat) :
  (0 < b)%Z ->
  ((IZR a / IZR b) ^ n * IZR (b ^ Z.of_nat n) = IZR (a ^ Z.of_nat n))%R.
Proof.
  intros Hb. unfold Rdiv. rewrite Rpow_mult_distr, pow_inv, <- !pow_IZR.
  field. apply pow_nonzero. apply not_0_IZR. lia.
Qed.

Lemma below_root (a b c : Z) (x : R) (n : nat) :
  (0 < b)%Z -> (0 < c)%Z -> (0 < x)%R -> (x ^ n = / IZR c)%R ->
  (a ^ Z.of_nat n * c < b ^ Z.of_nat n)%Z -> (IZR a / IZR b < x)%R.
Proof.
  intros Hb Hc Hx Hpow Hz. apply (pow_lt_inv _ _ n); [lra|].
  rewrite Hpow.
  assert (Hbn : (0 < IZR (b ^ Z.of_nat n))%R).
  { rewrite <- pow_IZR. apply pow_lt, IZR_lt. exact Hb. }
  assert (Hc' : (0 < IZR c)%R) by (apply IZR_lt; exact Hc).
  apply (Rmult_lt_reg_r (IZR (b ^ Z.of_nat n))); [assumption|].
  rewrite ratio_pow by assumption.
  apply (Rmult_lt_reg_r (IZR c)); [assumption|].
  replace (/ IZR c * IZR (b ^ Z.of_nat n) * IZR c)%R
    with (IZR (b ^ Z.of_nat n)) by (field; lra).
  rewrite <- mult_IZR. apply IZR_lt. exact Hz.
Qed.

Lemma above_root (a b c : Z) (x : R) (n : nat) :
  (0 < a)%Z -> (0 < b)%Z -> (0 < c)%Z -> (0 < x)%R -> (x ^ n = / IZR c)%R ->
  (b ^ Z.of_nat n < a ^ Z.of_nat n * c)%Z -> (x < IZR a / IZR b)%R.
Proof.
  intros Ha Hb Hc Hx Hpow Hz.
  assert (0 < IZR a / IZR b)%R
    by (apply Rdiv_lt_0_compat; apply IZR_lt; assumption).
  apply (pow_lt_inv _ _ n); [lra|].
  rewrite Hpow.
  assert (Hbn : (0 < IZR (b ^ Z.of_nat n))%R).
  { rewrite <- pow_IZR. apply pow_lt, IZR_lt. exact Hb. }
  assert (Hc' : (0 < IZR c)%R) by (apply IZR_lt; exact Hc).
  apply (Rmult_lt_reg_r (IZR (b ^ Z.of_nat n))); [assumption|].
  rewrite ratio_pow by assumption.
  apply (Rmult_lt_reg_r (IZR c)); [assumption|].
  replace (/ IZR c * IZR (b ^ Z.of_nat n) * IZR c)%R
    with (IZR (b ^ Z.of_nat n)) by (field; lra).
  rewrite <- mult_IZR. apply IZR_lt. exact Hz.
Qed.

Lemma Rpower_1000_B_pow : (Rpower 1000 (-0.135) ^ 200 = / 1000 ^ 27)%R.
Proof.
  rewrite <- Rpower_pow by apply exp_pos.
  rewrite Rpower_mult.
  replace (-0.135 * INR 200)%R with (- INR 27)%R
    by (rewrite !INR_IZR_INZ; change (Z.of_nat 200) with 200%Z;
        change (Z.of_nat 27) with 27%Z; lra).
  rewrite Rpower_Ropp, Rpower_pow by lra. reflexivity.
Qed.

Lemma Rpower_1000_B_bounds :
  (0.393549 < Rpower 1000 (-0.135) < 0.393551)%R.
Proof.
  assert (Hx : (0 < Rpower 1000 (-0.135))%R) by apply exp_pos.
  assert (Hp : (Rpower 1000 (-0.135) ^ 200
                = / IZR (1000 ^ Z.of_nat 27))%R).
  { rewrite <- pow_IZR. apply Rpower_1000_B_pow. }
  split.
  - replace 0.393549%R with (IZR 393549 / IZR 1000000)%R by lra.
    apply (below_root 393549 1000000 (1000 ^ Z.of_nat 27) _ 200);
      [reflexivity | reflexivity | exact Hx | exact Hp |].
    vm_compute. reflexivity.
  - replace 0.393551%R with (IZR 393551 / IZR 1000000)%R by lra.
    apply (above_root 393551 1000000 (1000 ^ Z.of_nat 27) _ 200);
      [reflexivity | reflexivity | reflexivity | exact Hx | exact Hp |].
    vm_compute. reflexivity.
Qed.

Lemma first_term_at_1000 :
  (1485.49 < 6291 * Rpower 1000 (-0.135) * (1 - 0.4) < 1485.50)%R.
Proof. pose proof Rpower_1000_B_bounds. lra. Qed.

Lemma example_at_defaults x : at_defaults (example_valuation x).
Proof.
  intros attr v H. unfold example_valuation.
  change (model_of example_unit_model costing_vars lt_med_params)
    with build_lt_med_surrogate_cost_param_block.
  rewrite H. reflexivity.
Qed.

(** C8.  With the parameters at their defaults (B = -0.135 < 0,
    f_evap = 0.4), the first term of the system-cost right-hand side,
    [A * capacity^B * (1 - f_evap)], is strictly decreasing in capacity:
    for positive capacities c1 < c2 its value at c2 is below its value
    at c1. *)
Theorem first_term_decreasing_in_capacity ext cb (rho1 rho2 : valuation) :
  cost_lt_med_surrogate ext = Some cb ->
  at_defaults rho1 -> at_defaults rho2 ->
  (0 < eval rho1 (capacity cb))%R ->
  (eval rho1 (capacity cb) < eval rho2 (capacity cb))%R ->
  rhs (system_cost_constraint cb)
  = (system_cost_term1 (capacity cb) + system_cost_term2)%expr /\
  (eval rho2 (system_cost_term1 (capacity cb))
   < eval rho1 (system_cost_term1 (capacity cb)))%R.
Proof.
  intros H H1 H2 Hpos Hlt. apply cost_lt_med_surrogate_inv in H.
  destruct H as (_ & _ & _ & _ & _ & -> & _).
  split; [reflexivity|].
  rewrite !eval_term1 by assumption.
  assert (Rpower (eval rho2 (capacity cb)) (-0.135)
          < Rpower (eval rho1 (capacity cb)) (-0.135))%R
    by (apply Rpower_neg_decreasing; [lra | assumption | assumption]).
  nra.
Qed.

Lemma first_term_decreasing_in_capacity_witness :
  exists cb,
    cost_lt_med_surrogate example_unit_model = Some cb /\
    (eval (example_valuation (2 / 86400)) (system_cost_term1 (capacity cb))
     < eval (example_valuation (1 / 86400))
            (system_cost_term1 (capacity cb)))%R.
Proof.
  eexists. split.
  - vm_compute. reflexivity.
  - apply (first_term_decreasing_in_capacity example_unit_model _
             (example_valuation (1 / 86400))
             (example_valuation (2 / 86400))).
    + vm_compute. reflexivity.
    + apply example_at_defaults.
    + apply example_at_defaults.
    + cbn. unfold Q2R. cbn. lra.
    + cbn. unfold Q2R. cbn. lra.
Defined.

Lemma example_hx_area x :
  example_valuation x blk "heat_exchanger_specific_area" = 100%R.
Proof.
  unfold example_valuation.
  replace (model_of example_unit_model costing_vars blk
             !! "heat_exchanger_specific_area")
    with (Some (Var_free 100 (m ** 2 / (kg / s))%unit
                  "Specific heat exchanger area"))
    by (vm_compute; reflexivity).
  unfold Q2R. cbn. lra.
Qed.

Lemma example_capacity_1000 cb :
  cost_lt_med_surrogate example_unit_model = Some cb ->
  eval (example_valuation (1000 / 86400)) (capacity cb) = 1000%R.
Proof.
  vm_compute cost_lt_med_surrogate. intros [= <-].
  cbn. unfold Q2R. cbn. lra.
Qed.

(** C4, as the code has it.  With the parameters at their defaults,
    capacity = 1000 m^3/day and heat_exchanger_specific_area = 100, the
    first term of the system-cost right-hand side is
    [6291 * 1000^(-0.135) * 0.6], which lies between 1485.49 and 1485.50
    (about 1485.5, not 1504.9), and the whole right-hand side is that
    term plus [0.4 * (100 / 302.01)^0.8]. *)
Theorem default_scenario_system_cost ext cb (rho : valuation) :
  cost_lt_med_surrogate ext = Some cb ->
  at_defaults rho ->
  eval rho (capacity cb) = 1000%R ->
  rho blk "heat_exchanger_specific_area" = 100%R ->
  eval rho (system_cost_term1 (capacity cb))
  = (6291 * Rpower 1000 (-0.135) * 0.6)%R /\
  (1485.49 < eval rho (system_cost_term1 (capacity cb)) < 1485.50)%R /\
  eval rho (rhs (system_cost_constraint cb))
  = (eval rho (system_cost_term1 (capacity cb))
     + 0.4 * Rpower (100 / 302.01) 0.8)%R.
Proof.
  intros H Hd Hcap Hhx. apply cost_lt_med_surrogate_inv in H.
  destruct H as (_ & _ & _ & _ & _ & -> & _).
  rewrite eval_term1, Hcap by assumption. repeat split.
  - f_equal. lra.
  - apply first_term_at_1000.
  - apply first_term_at_1000.
  - cbn [rhs eval]. rewrite eval_term1, eval_term2, Hcap, Hhx by assumption.
    reflexivity.
Qed.

Lemma default_scenario_system_cost_witness :
  exists cb,
    cost_lt_med_surrogate example_unit_model = Some cb /\
    (1485.49 < eval (example_valuation (1000 / 86400))
                    (system_cost_term1 (capacity cb)) < 1485.50)%R.
Proof.
  destruct (cost_lt_med_surrogate example_unit_model) as [cb|] eqn:E;
    [|vm_compute in E; discriminate E].
  exists cb. split; [reflexivity|].
  apply (default_scenario_system_cost example_unit_model cb
           (example_valuation (1000 / 86400)) E).
  - apply example_at_defaults.
  - apply example_capacity_1000. exact E.
  - apply example_hx_area.
Defined.

(** C4, as the specification words it, fails: in the default scenario the
    first system-cost term is below 1486, so it is not 1504.9 to the
    precision quoted. *)
Lemma default_scenario_first_term_not_1504_9 :
  exists cb,
    cost_lt_med_surrogate example_unit_model = Some cb /\
    at_defaults (example_valuation (1000 / 86400)) /\
    eval (example_valuation (1000 / 86400)) (capacity cb) = 1000%R /\
    example_valuation (1000 / 86400) blk "heat_exchanger_specific_area"
    = 100%R /\
    ~ (Rabs (eval (example_valuation (1000 / 86400))
                  (system_cost_term1 (capacity cb)) - 1504.9) <= 0.05)%R.
Proof.
  destruct (cost_lt_med_surrogate example_unit_model) as [cb|] eqn:E;
    [|vm_compute in E; discriminate E].
  exists cb. split; [reflexivity|].
  pose proof (example_at_defaults (1000 / 86400)) as Hd.
  pose proof (example_capacity_1000 cb E) as Hcap.
  repeat split; try assumption.
  - apply example_hx_area.
  - rewrite eval_term1, Hcap by assumption.
    pose proof first_term_at_1000 as Hb. intros Habs.
    unfold Rabs in Habs. destruct (Rcase_abs _) in Habs; lra.
Qed.

(** ** Units of the constraints *)

(** Evaluate the lookups of declared components in the goal. *)
Ltac eval_lookups :=
  repeat match goal with
         | |- context [model_of ?ext costing_vars ?o !! ?a] =>
             let t := constr:(model_of ext costing_vars o !! a) in
             let v := eval vm_compute in t in
             change t with v
         end;
  cbn [fmap option_fmap option_map mbind option_bind units fixed initialize].

(** Evaluate the dimension tests on closed units in the goal. *)
Ltac eval_tests :=
  repeat (match goal with
          | |- context [equivalent_to_dimensionless ?x] =>
              let v := eval vm_compute in (equivalent_to_dimensionless x) in
              match v with true => idtac | false => idtac end;
              change (equivalent_to_dimensionless x) with v
          | |- context [same_dimension ?x ?y] =>
              let v := eval vm_compute in (same_dimension x y) in
              match v with true => idtac | false => idtac end;
              change (same_dimension x y) with v
          end;
          cbn [negb fmap option_fmap option_map mbind option_bind units
               fixed initialize]).

(** Two units differ in dimension [d]. *)
Ltac dim_neq d :=
  apply (same_dimension_false _ _ d);
  rewrite ?dimensionality_umul, ?dimensionality_udiv, ?dimensionality_upow;
  let H := fresh in
  intros H;
  repeat match goal with
         | Hd : forall d, (dimensionality ?u d == _)%Q |- _ =>
             rewrite !Hd in H; clear Hd
         end;
  apply Qeq_bool_iff in H; vm_compute in H; discriminate H.

Ltac sum_mismatch d :=
  match goal with
  | |- context [if ?c then _ else _] =>
      replace c with false; [reflexivity|]
  end;
  symmetry; dim_neq d.

Lemma not_dimensionless u (v : pint_unit) d :
  (forall d, dimensionality u d == dimensionality v d)%Q ->
  Qeq_bool (dimensionality v d) 0 = false ->
  equivalent_to_dimensionless u = false.
Proof.
  intros Hd Hv. apply (same_dimension_false _ _ d). rewrite Hd.
  intros H. apply Qeq_bool_iff in H.
  change (dimensionality dimensionless d) with 0%Q in H. congruence.
Qed.

(** Currency on the left; a power of a flow plus a power of a specific
    area on the right. *)
Lemma system_cost_rhs_units ext cap u :
  get_units (model_of ext costing_vars) cap = Some u ->
  (forall d, dimensionality u d == dimensionality (m ** 3 / day)%unit d)%Q ->
  get_units (model_of ext costing_vars)
            (system_cost_term1 cap + system_cost_term2)%expr = None.
Proof.
  intros Hu Hd.
  cbn [get_units system_cost_term1 system_cost_term2 p self]. rewrite Hu.
  eval_lookups.
  rewrite (not_dimensionless u _ Length Hd) by reflexivity.
  eval_tests. sum_mismatch Length.
Qed.

(** Currency times volume per day plus currency. *)
Lemma capital_cost_rhs_units ext cap u :
  get_units (model_of ext costing_vars) cap = Some u ->
  (forall d, dimensionality u d == dimensionality (m ** 3 / day)%unit d)%Q ->
  get_units (model_of ext costing_vars)
    (self "system_cost" * cap
     + p "cost_storage_per_kwh" * self "thermal_storage_capacity")%expr
  = None.
Proof.
  intros Hu Hd. cbn [get_units p self]. rewrite Hu.
  eval_lookups. eval_tests. sum_mismatch Length.
Qed.

(** Currency per year plus currency. *)
Lemma fixed_operating_cost_rhs_units ext annual ua annual_brine ub :
  get_units (model_of ext costing_vars) annual = Some ua ->
  (forall d, dimensionality ua d == dimensionality (m ** 3 / year)%unit d)%Q ->
  get_units (model_of ext costing_vars) annual_brine = Some ub ->
  (forall d, dimensionality ub d == dimensionality (m ** 3 / year)%unit d)%Q ->
  get_units (model_of ext costing_vars)
    (annual
     * (p "cost_chemicals_per_vol_dist"
        + p "cost_labor_per_vol_dist"
        + p "cost_misc_per_vol_dist")
     + self "system_cost"
       * (p "cost_fraction_maintenance" + p "cost_fraction_insurance")
     + annual_brine * p "cost_disposal_per_vol_brine")%expr
  = None.
Proof.
  intros Hu Hd Hb Hdb. cbn [get_units p self]. rewrite Hu, Hb.
  eval_lookups. eval_tests. sum_mismatch Time.
Qed.

Lemma heat_exchanger_constraint_units ext hx u :
  get_units (model_of ext costing_vars) hx = Some u ->
  (forall d,
      dimensionality u d == dimensionality ((m ** 2 * s) / kg)%unit d)%Q ->
  units_consistent (model_of ext costing_vars)
    (self "heat_exchanger_specific_area" == hx)%expr = true.
Proof.
  intros Hu Hd. unfold units_consistent.
  cbn [lhs rhs get_units self]. rewrite Hu.
  eval_lookups. apply same_dimension_spec. intros d. rewrite Hd.
  destruct d; reflexivity.
Qed.

Lemma thermal_storage_constraint_units ext v :
  ext lt_med !! "thermal_power_requirement" = Some v ->
  same_dimension (units v) kW = true ->
  units_consistent (model_of ext costing_vars)
    (self "thermal_storage_capacity"
     == Ref lt_med "thermal_power_requirement"
        * self "hours_thermal_storage")%expr = true.
Proof.
  intros Hv Hd. unfold units_consistent.
  cbn [lhs rhs get_units self model_of]. rewrite Hv.
  eval_lookups. apply same_dimension_spec. intros d.
  rewrite dimensionality_umul.
  rewrite (proj1 (same_dimension_spec _ _) Hd d).
  destruct d; reflexivity.
Qed.

Lemma units_consistent_no_rhs M c :
  get_units M (rhs c) = None -> units_consistent M c = false.
Proof.
  intros H. unfold units_consistent. rewrite H.
  destruct (get_units M (lhs c)); reflexivity.
Qed.

(** C2, measured on the code.  Of the equality constraints that
    [cost_lt_med_surrogate] builds, the heat-exchanger specific-area
    constraint balances dimensionally, and so does the thermal-storage
    constraint when the unit model gives the thermal power in a unit of
    power.  The other three do not: the right-hand sides of
    [system_cost_constraint], [capital_cost_constraint] and
    [fixed_operating_cost_constraint] add terms of different dimensions
    (for the capital cost: currency times volume per day, plus currency),
    so the units walker rejects them and no constraint of the three is
    unit-consistent. *)
Theorem cost_constraints_unit_balance ext cb :
  cost_lt_med_surrogate ext = Some cb ->
  let M := model_of ext (vars cb) in
  units_consistent M (heat_exchanger_specific_area_constraint cb) = true /\
  (forall v,
      ext lt_med !! "thermal_power_requirement" = Some v ->
      same_dimension (units v) kW = true ->
      units_consistent M (thermal_storage_capacity_constraint cb) = true) /\
  get_units M (rhs (system_cost_constraint cb)) = None /\
  get_units M (rhs (capital_cost_constraint cb)) = None /\
  get_units M (rhs (fixed_operating_cost_constraint cb)) = None /\
  units_consistent M (system_cost_constraint cb) = false /\
  units_consistent M (capital_cost_constraint cb) = false /\
  units_consistent M (fixed_operating_cost_constraint cb) = false.
Proof.
  intros H. apply cost_lt_med_surrogate_inv in H. cbv zeta in H.
  destruct H as (-> & (hx & Hhx & ->) & (_ & ->) & Hcap & Hann & -> & ->
                 & (ab & Hab & ->)).
  apply convert_units in Hhx as (uh & Hh1 & Hh2).
  apply convert_units in Hcap as (uc & Hc1 & Hc2).
  apply convert_units in Hann as (ua & Ha1 & Ha2).
  apply convert_units in Hab as (ub & Hb1 & Hb2).
  cbv zeta.
  pose proof (system_cost_rhs_units ext _ _ Hc1 Hc2) as Hs.
  pose proof (capital_cost_rhs_units ext _ _ Hc1 Hc2) as Hk.
  pose proof (fixed_operating_cost_rhs_units ext _ _ _ _ Ha1 Ha2 Hb1 Hb2)
    as Hf.
  repeat split.
  - apply (heat_exchanger_constraint_units ext hx uh); assumption.
  - intros v Hv Hd. apply (thermal_storage_constraint_units ext v Hv Hd).
  - exact Hs.
  - exact Hk.
  - exact Hf.
  - apply units_consistent_no_rhs. exact Hs.
  - apply units_consistent_no_rhs. exact Hk.
  - apply units_consistent_no_rhs. exact Hf.
Qed.

Lemma cost_constraints_unit_balance_witness :
  exists cb,
    cost_lt_med_surrogate example_unit_model = Some cb /\
    units_consistent (model_of example_unit_model (vars cb))
                     (capital_cost_constraint cb) = false.
Proof.
  destruct (cost_lt_med_surrogate example_unit_model) as [cb|] eqn:E;
    [|vm_compute in E; discriminate E].
  exists cb. split; [reflexivity|].
  apply (cost_constraints_unit_balance example_unit_model cb E).
Defined.

(** ** Bounds and validation *)

Lemma get_units_same_interface ext ext' b e :
  same_interface ext ext' -> no_pow e = true ->
  get_units (model_of ext b) e = get_units (model_of ext' b) e.
Proof.
  intros Hi.
  induction e as [| |o a|a IHa c IHc|a IHa c IHc|a IHa c IHc
                  |a IHa c IHc|a IHa c IHc]; cbn [no_pow get_units].
  - reflexivity.
  - reflexivity.
  - intros _. destruct o; try reflexivity; apply Hi.
  - intros [Ha Hc]%andb_true_iff. rewrite IHa, IHc by assumption. reflexivity.
  - intros [Ha Hc]%andb_true_iff. rewrite IHa, IHc by assumption. reflexivity.
  - intros [Ha Hc]%andb_true_iff. rewrite IHa, IHc by assumption. reflexivity.
  - intros [Ha Hc]%andb_true_iff. rewrite IHa, IHc by assumption. reflexivity.
  - discriminate.
Qed.

Lemma convert_same_interface ext ext' b src to_units :
  same_interface ext ext' -> no_pow src = true ->
  convert (model_of ext b) src to_units
  = convert (model_of ext' b) src to_units.
Proof.
  intros Hi Hs. unfold convert.
  rewrite (get_units_same_interface ext ext' b src Hi Hs). reflexivity.
Qed.

Lemma convert_no_pow M src to_units e :
  convert M src to_units = Some e -> no_pow src = true -> no_pow e = true.
Proof.
  unfold convert. intros H Hs.
  destruct (get_units M src) as [su|]; [|discriminate H].
  cbn [mbind option_bind] in H.
  destruct (unit_eqb su to_units); [congruence|].
  destruct (negb (same_dimension su to_units)); [discriminate H|].
  destruct (base_factor su); [|discriminate H].
  destruct (base_factor to_units); [|discriminate H].
  cbn [mbind option_bind] in H. injection H as <-.
  cbn [no_pow]. rewrite Hs. reflexivity.
Qed.

Lemma getattr_same_interface ext ext' b o attr :
  same_interface ext ext' ->
  getattr (model_of ext b) o attr = getattr (model_of ext' b) o attr.
Proof.
  intros Hi. unfold getattr.
  destruct o; try reflexivity; cbn [model_of];
    match goal with
    | |- context [ext ?o !! attr] =>
        specialize (Hi o attr);
        destruct (ext o !! attr), (ext' o !! attr);
        try reflexivity; discriminate Hi
    end.
Qed.

(** What the block builds depends on the unit model only through the
    names and units of its attributes. *)
Lemma cost_lt_med_surrogate_same_interface ext ext' :
  same_interface ext ext' ->
  cost_lt_med_surrogate ext = cost_lt_med_surrogate ext'.
Proof.
  intros Hi. unfold cost_lt_med_surrogate. cbv zeta.
  repeat match goal with
         | |- context [getattr (model_of ext costing_vars) ?o ?a] =>
             rewrite (getattr_same_interface ext ext' costing_vars o a Hi)
         end.
  repeat
    (match goal with
     | |- mbind _ (getattr (model_of ext' costing_vars) ?o ?a) = _ =>
         let E := fresh "E" in
         destruct (getattr (model_of ext' costing_vars) o a) eqn:E;
         [apply getattr_Some in E; destruct E as [-> _] | reflexivity]
     | |- mbind _ (convert (model_of ext costing_vars) ?src ?u) = _ =>
         rewrite (convert_same_interface ext ext' costing_vars src u Hi)
           by (cbn [no_pow andb]; reflexivity || assumption)
     | |- mbind _ (convert (model_of ext' costing_vars) ?src ?u) = _ =>
         let E := fresh "E" in
         destruct (convert (model_of ext' costing_vars) src u) eqn:E;
         [apply convert_no_pow in E; [|reflexivity || assumption]
         | reflexivity]
     end; cbn [mbind option_bind]).
  reflexivity.
Qed.

(** C3, as the code has it.  The four variables that
    [cost_lt_med_surrogate] declares itself ([system_cost],
    [heat_exchanger_specific_area], [thermal_storage_capacity],
    [hours_thermal_storage]) are constructed without bounds, lower or
    upper; and the block validates no input: a unit model with the same
    attribute names and units but any other values and bounds yields the
    same block. *)
Theorem costing_block_variables_unbounded ext cb :
  cost_lt_med_surrogate ext = Some cb ->
  (forall name,
      In name ["system_cost"; "heat_exchanger_specific_area";
               "thermal_storage_capacity"; "hours_thermal_storage"] ->
      exists v, vars cb !! name = Some v /\ bounds v = (None, None)) /\
  (forall ext',
      same_interface ext ext' -> cost_lt_med_surrogate ext' = Some cb).
Proof.
  intros H. split.
  - apply cost_lt_med_surrogate_inv in H. destruct H as (-> & _).
    intros name Hn. cbn [In] in Hn.
    destruct Hn as [<-|[<-|[<-|[<-|[]]]]];
      eexists; (split; [vm_compute; reflexivity | reflexivity]).
  - intros ext' Hi.
    rewrite <- (cost_lt_med_surrogate_same_interface ext ext' Hi). exact H.
Qed.

Lemma costing_block_variables_unbounded_witness :
  exists cb,
    cost_lt_med_surrogate example_unit_model = Some cb /\
    exists v, vars cb !! "system_cost" = Some v /\ bounds v = (None, None).
Proof.
  destruct (cost_lt_med_surrogate example_unit_model) as [cb|] eqn:E;
    [|vm_compute in E; discriminate E].
  exists cb. split; [reflexivity|].
  apply (costing_block_variables_unbounded example_unit_model cb E).
  cbn [In]. left. reflexivity.
Defined.

(** C3, as the specification words it, fails: [system_cost] is built by
    the block and its lower bound is not 0. *)
Lemma system_cost_has_no_lower_bound :
  exists cb v,
    cost_lt_med_surrogate example_unit_model = Some cb /\
    vars cb !! "system_cost" = Some v /\
    lb v <> Some 0%Q.
Proof.
  eexists. eexists. split; [vm_compute; reflexivity|].
  split; [vm_compute; reflexivity|].
  cbn. discriminate.
Qed.

End lt_med_facts.

(* ===================================================================== *)
(** * The trough surrogate                                                *)
(* ===================================================================== *)

Module trough_facts.
Import pyunits pyo trough_surrogate.

Section logic.
Context {Trained RandomState : Type} {L : Libraries Trained RandomState}.
Abbreviation world := (trough_surrogate.world Trained RandomState).
Abbreviation M := (@trough_surrogate.M Trained RandomState).

Lemma bind_run {A B} (c : M A) (k : A -> M B) (w : world) :
  (c ≫= k) w
  = match c w with
    | (inl a, w') => k a w'
    | (inr e, w') => (inr e, w')
    end.
Proof. reflexivity. Qed.

Lemma bind_inl {A B} (c : M A) (k : A -> M B) (w w' : world) b :
  (c ≫= k) w = (inl b, w') ->
  exists a w1, c w = (inl a, w1) /\ k a w1 = (inl b, w').
Proof.
  rewrite bind_run. destruct (c w) as [[a|e] w1]; [eauto|discriminate].
Qed.


(** *** Rules *)

Lemma hoare_bind {A B} P R Q (c : M A) (k : A -> M B) :
  hoare P c R -> (forall a, hoare (R a) (k a) Q) -> hoare P (c ≫= k) Q.
Proof.
  intros Hc Hk w b w' HP H. apply bind_inl in H as (a & w1 & H1 & H2).
  eapply Hk; [|exact H2]. eapply Hc; eassumption.
Qed.

Lemma hoare_weaken {A} (P P' : world -> Prop) (c : M A) Q :
  (forall w, P w -> P' w) -> hoare P' c Q -> hoare P c Q.
Proof. intros HP Hc w a w' Hw H. eapply Hc; eauto. Qed.

Lemma hoare_stable {A} I (c : M A) : stable I c -> hoare I c (fun _ => I).
Proof. intros Hc w a w' HI H. eapply Hc; eassumption. Qed.

Lemma stable_bind {A B} I (c : M A) (k : A -> M B) :
  stable I c -> (forall a, stable I (k a)) -> stable I (c ≫= k).
Proof.
  intros Hc Hk w r w' HI H. rewrite bind_run in H.
  destruct (c w) as [[a|e] w1] eqn:E.
  - eapply Hk; [|exact H]. eapply Hc; eassumption.
  - injection H as <- <-. eapply Hc; eassumption.
Qed.




Lemma hoare_skip {A B} (c : M A) (k : A -> M B) (Q : B -> world -> Prop) :
  (forall a, hoare (fun _ => True) (k a) Q) ->
  hoare (fun _ => True) (c ≫= k) Q.
Proof.
  intros Hk. apply (hoare_bind _ (fun _ _ => True)); [|exact Hk].
  intros w a w' _ _. exact I.
Qed.

Lemma hoare_pure {A} (phi : Prop) P (c : M A) Q :
  (phi -> hoare P c Q) -> hoare (fun w => phi /\ P w) c Q.
Proof. intros Hc w a w' [Hphi HP] H. eapply Hc; eassumption. Qed.

(** *** Frames: what a computation leaves alone *)

Lemma keeps_bind {X A B} (proj : world -> X) (c : M A) (k : A -> M B) :
  keeps proj c -> (forall a, keeps proj (k a)) -> keeps proj (c ≫= k).
Proof.
  intros Hc Hk w r w' H. rewrite bind_run in H.
  destruct (c w) as [[a|e] w1] eqn:E.
  - rewrite (Hk _ _ _ _ H). exact (Hc _ _ _ E).
  - injection H as <- <-. exact (Hc _ _ _ E).
Qed.

Lemma keeps_stable {X A} (proj : world -> X) (P : X -> Prop) (c : M A) :
  keeps proj c -> stable (fun w => P (proj w)) c.
Proof. intros Hc w r w' HP H. rewrite (Hc _ _ _ H). exact HP. Qed.

(** Unfold one primitive step and read off the final world. *)
Ltac prim :=
  let w := fresh "w" in
  let r := fresh "r" in
  let w' := fresh "w'" in
  let H := fresh "H" in
  intros w r w' H;
  unfold mret, M_ret, setattr, getattr, StringIO, get_stdout, put_stdout,
    raise, lift, try_except, call_train_surrogate, os_remove, read_pickle, load_from_file, save_to_file, sample,
    hours_per_year in H;
  try rewrite bind_run in H;
  repeat case_match; unfold mret, M_ret, raise in *;
  simplify_eq; try reflexivity.

Ltac frame :=
  unfold build, super_build, _create_rbf_surrogate, _get_surrogate_data,
    remove_solution_pickle, get_names, get_frame, get_str, get_int,
    get_float;
  repeat first
    [ apply keeps_bind; [|intros ?]
    | match goal with
      | |- keeps _ (match ?x with _ => _ end) => destruct x
      | |- keeps _ (if ?x then _ else _) => destruct x
      end
    | solve [prim] ].

(** *** The primitive steps *)




(** *** Redirecting [sys.stdout] *)






Variable dirname : string.







(** *** The temporary file *)

Lemma remove_solution_pickle_post (w w' : world) :
  remove_solution_pickle w = (inl tt, w') -> solution_absent w'.
Proof.
  unfold remove_solution_pickle, try_except, os_remove, solution_absent.
  intros H. repeat case_match; unfold mret, M_ret, raise in *;
    simplify_eq; cbn [fs set_fs]; [apply lookup_delete_eq | assumption].
Qed.

Lemma hoare_exists_pre {A X} (P : X -> world -> Prop) (c : M A) Q :
  (forall x, hoare (P x) c Q) -> hoare (fun w => exists x, P x w) c Q.
Proof. intros Hc w a w' [x HP] H. eapply Hc; eassumption. Qed.

Lemma hoare_strengthen {A} P (c : M A) (Q Q' : A -> world -> Prop) :
  (forall a w, Q' a w -> Q a w) -> hoare P c Q' -> hoare P c Q.
Proof. intros HQ Hc w a w' HP H. apply HQ. eapply Hc; eassumption. Qed.

Lemma save_to_file_post sur path (f : gmap string (node Trained)) :
  hoare (fun w : world => fs w = f) (save_to_file sur path)
        (fun _ w' => fs w' = <[path := File (Json sur)]> f).
Proof.
  intros w a w' Hf H. unfold save_to_file in H.
  repeat case_match; simplify_eq; reflexivity.
Qed.

(** After the cleanup the only write is the artifact the caller asked
    for. *)
Lemma create_cleanup dt out :
  hoare (fun _ => True) (_create_rbf_surrogate dt out)
    (fun _ w' =>
       exists f : gmap string (node Trained),
         f !! "solution.pickle" = None /\
         match out with
         | None => fs w' = f
         | Some path =>
             exists sur, fs w' = <[path := File (Json sur)]> f
         end).
Proof.
  unfold _create_rbf_surrogate.
  repeat lazymatch goal with
    | |- hoare _ (mbind _ remove_solution_pickle) _ => fail
    | |- hoare _ (mbind _ _) _ => apply hoare_skip; intros ?
    end.
  apply (hoare_bind _
           (fun _ w => exists f, f !! "solution.pickle" = None /\ fs w = f)).
  { intros w [] w' _ H. exists (fs w'). split; [|reflexivity].
    exact (remove_solution_pickle_post _ _ H). }
  intros _. apply hoare_exists_pre. intros f. apply hoare_pure. intros Hf.
  apply (hoare_strengthen _ _ _
           (fun _ w' =>
              match out with
              | None => fs w' = f
              | Some path =>
                  exists sur, fs w' = <[path := File (Json sur)]> f
              end)).
  { intros _ w' H. exists f. split; [exact Hf | exact H]. }
  repeat lazymatch goal with
    | |- hoare _ (mbind _ (match out with _ => _ end)) _ => fail
    | |- hoare _ (mbind _ _) _ =>
        apply (hoare_bind _ (fun _ w => fs w = f));
        [ apply hoare_stable;
          apply (keeps_stable fs (fun x => x = f)); solve [frame]
        | intros ? ]
    end.
  destruct out as [path|].
  - eapply hoare_bind; [apply save_to_file_post|].
    intros _ w ? w' Hw H. eexists.
    match type of H with
    | ?c _ = _ => assert (Hk : keeps fs c) by frame
    end.
    rewrite (Hk _ _ _ H). exact Hw.
  - apply (hoare_bind _ (fun _ w => fs w = f)).
    + apply hoare_stable.
      apply (keeps_stable fs (fun x => x = f)). frame.
    + intros _. apply hoare_stable.
      apply (keeps_stable fs (fun x => x = f)). frame.
Qed.

(** *** Attributes of [self] *)

Lemma stable_setattr_other attr v other v' :
  attr <> other -> stable (has_attr attr v) (setattr other v' : M _).
Proof.
  intros Hne w r w' Hw H. unfold setattr in H. simplify_eq.
  unfold has_attr. cbn [self set_self].
  rewrite lookup_insert_ne by congruence. exact Hw.
Qed.

Lemma stable_and {A} (I J : world -> Prop) (c : M A) :
  stable I c -> stable J c -> stable (fun w => I w /\ J w) c.
Proof.
  intros HI HJ w r w' [Hi Hj] H. split; [eapply HI|eapply HJ]; eassumption.
Qed.

Ltac stable_attr :=
  unfold build, super_build, _create_rbf_surrogate, _get_surrogate_data,
    remove_solution_pickle, get_names, get_frame, get_str, get_int,
    get_float;
  repeat first
    [ apply stable_and
    | apply stable_bind; [|intros ?]
    | match goal with
      | |- stable _ (match ?x with _ => _ end) => destruct x
      | |- stable _ (if ?x then _ else _) => destruct x
      end
    | apply stable_setattr_other; discriminate
    | match goal with
      | |- stable (has_attr ?a ?v) _ =>
          apply (keeps_stable self (fun m => m !! a = Some v));
          solve [prim]
      end ].

(** [build] sets [attr] to [v] and later steps leave it alone. *)
Ltac establishes attr :=
  unfold build;
  repeat lazymatch goal with
    | |- hoare _ (mbind _ (setattr attr ?v)) _ =>
        apply (hoare_bind _ (fun _ => has_attr attr v));
        [ let H := fresh in
          intros ? ? ? _ H; unfold setattr in H; simplify_eq;
          apply lookup_insert_eq
        | intros ?; apply hoare_stable; solve [stable_attr] ]
    | |- hoare _ (mbind _ _) _ => apply hoare_skip; intros ?
    end.

Lemma build_built : hoare (fun _ => True) (build dirname) (fun _ => built).
Proof.
  assert (H1 : hoare (fun _ : world => True) (build dirname)
                 (fun _ => has_attr "input_labels"
                             (Names ["heat_load"; "hours_storage"])))
    by establishes "input_labels".
  assert (H2 : hoare (fun _ : world => True) (build dirname)
                 (fun _ => has_attr "heat_load" (Component heat_load_var)))
    by establishes "heat_load".
  assert (H3 : hoare (fun _ : world => True) (build dirname)
                 (fun _ => has_attr "hours_storage"
                             (Component hours_storage_var)))
    by establishes "hours_storage".
  intros w a w' HP H. repeat split; [eapply H1|eapply H2|eapply H3]; eauto.
Qed.

Lemma hoare_get_names (I : world -> Prop) attr l :
  (forall w, I w -> has_attr attr (Names l) w) ->
  hoare I (get_names attr) (fun l' w => l' = l /\ I w).
Proof.
  intros HI w l' w' Hw H. specialize (HI w Hw). unfold has_attr in HI.
  unfold get_names in H. rewrite bind_run in H. unfold getattr in H.
  rewrite HI in H. unfold mret, M_ret in H. simplify_eq. auto.
Qed.

Lemma hoare_lift_inl {A} (I : world -> Prop) (a : A) :
  hoare I (lift (inl a)) (fun a' w => a' = a /\ I w).
Proof. intros w a' w' Hw H. unfold lift in H. simplify_eq. auto. Qed.

(** Training from a built unit leaves it built and stores a surrogate
    whose input bounds are the hard-coded ones. *)
Lemma create_bounds dt out :
  hoare built (_create_rbf_surrogate dt out)
    (fun _ w =>
       built w /\
       exists sur,
         has_attr "rbf_surr" (Surrogate sur) w /\
         surrogate_input_labels sur = ["heat_load"; "hours_storage"] /\
         surrogate_input_bounds sur = trained_bounds).
Proof.
  unfold _create_rbf_surrogate.
  repeat lazymatch goal with
    | |- hoare _ (mbind _ (get_names "input_labels")) _ =>
        eapply hoare_bind;
        [ apply hoare_get_names; intros ? Hb; exact (proj1 Hb)
        | intros ?; apply hoare_pure; intros -> ]
    | |- hoare _ (mbind _ (lift _)) _ =>
        eapply hoare_bind;
        [ apply hoare_lift_inl | intros ?; apply hoare_pure; intros -> ]
    | |- hoare _ (mbind _ (setattr "rbf_surr" _)) _ => fail
    | |- hoare _ (mbind _ _) _ =>
        apply (hoare_bind _ (fun _ => built));
        [ apply hoare_stable; unfold built; solve [stable_attr]
        | intros ? ]
    end.
  match goal with
  | |- hoare _ (mbind _ (setattr "rbf_surr" (Surrogate ?sur))) _ =>
      apply (hoare_bind _ (fun _ w =>
                             built w /\
                             has_attr "rbf_surr" (Surrogate sur) w))
  end.
  - match goal with
    | |- hoare _ ?c _ =>
        assert (Hst : stable built c) by (unfold built; stable_attr)
    end.
    intros w [] w' Hw H. split; [exact (Hst _ _ _ Hw H)|].
    unfold setattr in H. simplify_eq. apply lookup_insert_eq.
  - intros _.
    eapply hoare_strengthen;
      [|apply hoare_stable; unfold built; solve [stable_attr]].
    intros _ w [Hb Hs]. split; [exact Hb|].
    eexists. split; [exact Hs|]. split; reflexivity.
Qed.

Lemma run_eq {A} (c : M A) (w : world) r :
  fst (c w) = r -> c w = (r, snd (c w)).
Proof. destruct (c w). cbn. intros ->. reflexivity. Qed.

(** *** Runs that return *)

Lemma returns_bind {A B} P R Q (c : M A) (k : A -> M B) :
  returns P c R -> (forall a, returns (R a) (k a) Q) ->
  returns P (c ≫= k) Q.
Proof.
  intros Hc Hk w HP. destruct (Hc w HP) as (a & w1 & E & HR).
  destruct (Hk a w1 HR) as (b & w' & E' & HQ). exists b, w'.
  split; [|exact HQ]. rewrite bind_run, E. exact E'.
Qed.

Lemma returns_pure {A} (phi : Prop) P (c : M A) Q :
  (phi -> returns P c Q) -> returns (fun w => phi /\ P w) c Q.
Proof. intros Hc w [Hphi HP]. exact (Hc Hphi w HP). Qed.

Lemma returns_strengthen {A} P (c : M A) (Q Q' : A -> world -> Prop) :
  (forall a w, Q' a w -> Q a w) -> returns P c Q' -> returns P c Q.
Proof.
  intros HQ Hc w HP. destruct (Hc w HP) as (a & w' & E & H).
  exists a, w'. split; [exact E|]. apply HQ. exact H.
Qed.

Lemma returns_setattr f il ol df attr v :
  attr <> "input_labels" -> attr <> "output_labels" ->
  attr <> "data_training" ->
  returns (ready f il ol df) (setattr attr v : M _)
          (fun _ => ready f il ol df).
Proof.
  intros N1 N2 N3 w (Hf & H1 & H2 & H3). exists tt. eexists.
  split; [reflexivity|]. unfold ready, has_attr. cbn [fs self set_self].
  rewrite !lookup_insert_ne by congruence. auto.
Qed.

Lemma returns_redirect f il ol df {B} (k : stream -> M B) Q :
  (forall old, returns (ready f il ol df) (k old) Q) ->
  returns (ready f il ol df)
    (StringIO ≫= fun stream =>
     get_stdout ≫= fun old => put_stdout stream ≫= fun _ => k old) Q.
Proof.
  intros Hk w Hw. rewrite !bind_run.
  unfold StringIO, get_stdout, put_stdout. cbv beta iota.
  apply Hk. exact Hw.
Qed.

Lemma returns_put_stdout f il ol df o :
  returns (ready f il ol df) (put_stdout o : M _)
          (fun _ => ready f il ol df).
Proof.
  intros w Hw. exists tt. eexists. split; [reflexivity|]. exact Hw.
Qed.

Lemma returns_input_labels f il ol df :
  returns (ready f il ol df) (get_names "input_labels" : M _)
          (fun l w => l = il /\ ready f il ol df w).
Proof.
  intros w Hw. exists il, w. split; [|auto].
  destruct Hw as (_ & H & _). unfold has_attr in H.
  unfold get_names. rewrite bind_run. unfold getattr. rewrite H. reflexivity.
Qed.

Lemma returns_output_labels f il ol df :
  returns (ready f il ol df) (get_names "output_labels" : M _)
          (fun l w => l = ol /\ ready f il ol df w).
Proof.
  intros w Hw. exists ol, w. split; [|auto].
  destruct Hw as (_ & _ & H & _). unfold has_attr in H.
  unfold get_names. rewrite bind_run. unfold getattr. rewrite H. reflexivity.
Qed.

Lemma returns_data_training f il ol df :
  returns (ready f il ol df) (get_frame "data_training" : M _)
          (fun d w => d = df /\ ready f il ol df w).
Proof.
  intros w Hw. exists df, w. split; [|auto].
  destruct Hw as (_ & _ & _ & H). unfold has_attr in H.
  unfold get_frame. rewrite bind_run. unfold getattr. rewrite H. reflexivity.
Qed.

Lemma returns_train f il ol df tr t f1 :
  train_surrogate tr f = (inl t, f1) ->
  returns (ready f il ol df) (call_train_surrogate tr : M _)
          (fun t' w => t' = t /\ ready f1 il ol df w).
Proof.
  intros Ht w (Hf & H1 & H2 & H3). exists t. eexists.
  unfold call_train_surrogate. rewrite Hf, Ht.
  split; [reflexivity|]. split; [reflexivity|]. repeat split; assumption.
Qed.

(** The cleanup returns whether or not the file is there, and leaves the
    files without it. *)
Lemma returns_remove_solution_pickle f il ol df :
  f !! "solution.pickle" <> Some Dir ->
  returns (ready f il ol df) (remove_solution_pickle : M _)
          (fun _ => ready (delete "solution.pickle" f) il ol df).
Proof.
  intros Hd w (Hf & H1 & H2 & H3). exists tt.
  unfold remove_solution_pickle, try_except, os_remove. rewrite Hf.
  destruct (f !! "solution.pickle") as [[|c]|] eqn:E.
  - congruence.
  - eexists. split; [reflexivity|]. rewrite <- Hf. repeat split; assumption.
  - exists w. split; [reflexivity|].
    rewrite (delete_id f "solution.pickle") by exact E.
    repeat split; assumption.
Qed.

Lemma dict_of_bounds_two (il : list string) :
  (length il <= 2)%nat ->
  exists b,
    dict_of_bounds (seq 0 (length il)) il [100; 0]%Q [1000; 26]%Q ∅ = inl b.
Proof.
  destruct il as [|x [|y [|z il]]]; cbn [length]; intros H;
    [eexists; reflexivity .. | lia].
Qed.

Lemma returns_lift {A} P (a : A) :
  returns P (lift (inl a) : M A) (fun a' w => a' = a /\ P w).
Proof. intros w Hw. exists a, w. auto. Qed.

Lemma returns_save_to_file f il ol df sur path :
  f !! path <> Some Dir ->
  returns (ready f il ol df) (save_to_file sur path : M _)
          (fun _ => ready (<[path := File (Json sur)]> f) il ol df).
Proof.
  intros Hd w (Hf & H1 & H2 & H3). exists tt. eexists.
  unfold save_to_file. rewrite Hf.
  split.
  - destruct (f !! path) as [[|c]|]; [congruence|reflexivity|reflexivity].
  - repeat split; assumption.
Qed.

Lemma returns_ret {A} P (a : A) :
  returns P (mret a : M A) (fun _ => P).
Proof. intros w Hw. exists a, w. auto. Qed.

Lemma returns_data dt il ol df (w : world) :
  has_attr "input_labels" (Names il) w ->
  has_attr "output_labels" (Names ol) w ->
  match dt with
  | Some d => d = df
  | None =>
      exists r w0,
        _get_surrogate_data false w = (inl r, w0) /\
        has_attr "data_training" (Frame df) w0
  end ->
  returns (fun w0 => w0 = w)
    (match dt with
     | None => _get_surrogate_data false;; mret tt
     | Some d => setattr "data_training" (Frame d)
     end)
    (fun _ => ready (fs w) il ol df).
Proof.
  intros Hil Hol Hdt ? ->. exists tt. destruct dt as [d|].
  - subst d. eexists. split; [reflexivity|].
    unfold ready, has_attr. cbn [fs self set_self].
    rewrite !lookup_insert_ne by discriminate.
    rewrite lookup_insert_eq. auto.
  - destruct Hdt as (r & w0 & E & Hdf). exists w0.
    split; [rewrite bind_run, E; reflexivity|].
    assert (Hk : keeps fs (_get_surrogate_data false)) by frame.
    assert (H1 : stable (has_attr "input_labels" (Names il))
                   (_get_surrogate_data false)) by stable_attr.
    assert (H2 : stable (has_attr "output_labels" (Names ol))
                   (_get_surrogate_data false)) by stable_attr.
    split; [exact (Hk _ _ _ E)|].
    split; [exact (H1 _ _ _ Hil E)|].
    split; [exact (H2 _ _ _ Hol E)|exact Hdf].
Qed.

Lemma create_returns dt out il ol df t f1 b (w : world) :
  has_attr "input_labels" (Names il) w ->
  has_attr "output_labels" (Names ol) w ->
  match dt with
  | Some d => d = df
  | None =>
      exists r w0,
        _get_surrogate_data false w = (inl r, w0) /\
        has_attr "data_training" (Frame df) w0
  end ->
  dict_of_bounds (seq 0 (length il)) il [100; 0]%Q [1000; 26]%Q ∅ = inl b ->
  train_surrogate (mkTrainer il ol df "gaussian" "algebraic" true) (fs w)
  = (inl t, f1) ->
  f1 !! "solution.pickle" <> Some Dir ->
  (forall path,
      out = Some path -> delete "solution.pickle" f1 !! path <> Some Dir) ->
  returns (fun w0 => w0 = w) (_create_rbf_surrogate dt out)
    (fun _ w' =>
       fs w' = match out with
               | None => delete "solution.pickle" f1
               | Some path =>
                   <[path := File (Json (mkSurrogate t il ol b))]>
                     (delete "solution.pickle" f1)
               end).
Proof.
  intros Hil Hol Hdt Hb Htrain Hfile Hout.
  unfold _create_rbf_surrogate.
  eapply returns_bind; [exact (returns_data dt il ol df w Hil Hol Hdt)|].
  intros ?. apply returns_redirect. intros old.
  eapply returns_bind; [apply returns_input_labels|].
  intros ?. apply returns_pure. intros ->.
  eapply returns_bind; [apply returns_output_labels|].
  intros ?. apply returns_pure. intros ->.
  eapply returns_bind; [apply returns_data_training|].
  intros ?. apply returns_pure. intros ->.
  eapply returns_bind; [apply returns_setattr; discriminate|].
  intros ?.
  eapply returns_bind; [apply (returns_train _ _ _ _ _ _ _ Htrain)|].
  intros ?. apply returns_pure. intros ->.
  eapply returns_bind; [apply returns_setattr; discriminate|].
  intros ?.
  eapply returns_bind;
    [apply (returns_remove_solution_pickle _ _ _ _ Hfile)|].
  intros ?.
  eapply returns_bind; [apply returns_input_labels|].
  intros ?. apply returns_pure. intros ->.
  rewrite Hb.
  eapply returns_bind; [apply returns_lift|].
  intros ?. apply returns_pure. intros ->.
  eapply returns_bind; [apply returns_setattr; discriminate|].
  intros ?.
  eapply returns_bind; [apply returns_setattr; discriminate|].
  intros ?.
  match goal with
  | |- returns _ _ (fun _ w' => fs w' = ?f2) =>
      apply (returns_bind _ (fun _ => ready f2 il ol df))
  end.
  - destruct out as [path|].
    + apply returns_save_to_file. apply Hout. reflexivity.
    + apply returns_ret.
  - intros ?. eapply returns_strengthen; [|apply returns_put_stdout].
    intros ? w' Hw'. exact (proj1 Hw').
Qed.

(** *** The claims *)


(** C7.  [_create_rbf_surrogate] removes [solution.pickle] before it
    returns, whether or not the file is there to remove.  Let [self]
    carry the input and output labels (at most two input labels, the
    bounds being given for two), let [df] be the training frame (the
    frame passed in, or the one the sampling stores on [self]), and let
    training on [df] return a model [t] and leave the files [f1], in
    which [solution.pickle] is no directory, and neither is the path
    the artifact is to go to.  Then the method returns, and the files
    at the return are [f1] without [solution.pickle], plus the artifact
    when [output_filename] is given.  Nothing is asked of [f1] about
    the file: when training has left none, the cleanup is no error and
    the files at the return are [f1] itself (plus the artifact).
    Moreover every normal return of the method, from any state, leaves
    files of this shape.  Paths are keys as they are spelled. *)
Theorem solution_pickle_removed dt out :
  (forall il ol df t f1 (w : world),
      has_attr "input_labels" (Names il) w ->
      has_attr "output_labels" (Names ol) w ->
      (length il <= 2)%nat ->
      match dt with
      | Some d => d = df
      | None =>
          exists r w0,
            _get_surrogate_data false w = (inl r, w0) /\
            has_attr "data_training" (Frame df) w0
      end ->
      train_surrogate (mkTrainer il ol df "gaussian" "algebraic" true)
                      (fs w)
      = (inl t, f1) ->
      f1 !! "solution.pickle" <> Some Dir ->
      (forall path,
          out = Some path ->
          delete "solution.pickle" f1 !! path <> Some Dir) ->
      exists w' b,
        _create_rbf_surrogate dt out w = (inl tt, w') /\
        fs w' = match out with
                | None => delete "solution.pickle" f1
                | Some path =>
                    <[path := File (Json (mkSurrogate t il ol b))]>
                      (delete "solution.pickle" f1)
                end) /\
  (forall w w' : world,
      _create_rbf_surrogate dt out w = (inl tt, w') ->
      exists f : gmap string (node Trained),
        f !! "solution.pickle" = None /\
        match out with
        | None => fs w' = f
        | Some path => exists sur, fs w' = <[path := File (Json sur)]> f
        end).
Proof.
  split.
  - intros il ol df t f1 w Hil Hol Hlen Hdt Htrain Hfile Hout.
    destruct (dict_of_bounds_two il Hlen) as (b & Hb).
    destruct (create_returns dt out il ol df t f1 b w
                Hil Hol Hdt Hb Htrain Hfile Hout w eq_refl)
      as ([] & w' & E & Hfs).
    exists w', b. split; [exact E|exact Hfs].
  - intros w w' H. exact (create_cleanup dt out w tt w' I H).
Qed.

Lemma trained_bounds_lookup name lo hi :
  trained_bounds !! name = Some (lo, hi) ->
  (name = "heat_load" /\ lo = 100%Q /\ hi = 1000%Q) \/
  (name = "hours_storage" /\ lo = 0%Q /\ hi = 26%Q).
Proof.
  unfold trained_bounds. intros H.
  destruct (decide (name = "hours_storage")) as [->|Hn1].
  - rewrite lookup_insert_eq in H. injection H as <- <-. auto.
  - rewrite lookup_insert_ne in H by congruence.
    destruct (decide (name = "heat_load")) as [->|Hn2].
    + rewrite lookup_insert_eq in H. injection H as <- <-. auto.
    + rewrite lookup_insert_ne in H by congruence.
      rewrite lookup_empty in H. discriminate H.
Qed.

(** C10.  After [build], training a surrogate on the unit stores an
    artifact whose input bounds are, label by label, the bounds of the
    live input variables: [heat_load] in [100, 1000] and
    [hours_storage] in [0, 26].  Every point within the bounds of the
    variables is therefore inside the artifact's input domain. *)
Theorem surrogate_inputs_within_trained_bounds dt out (w w1 w2 : world) :
  build dirname w = (inl tt, w1) ->
  _create_rbf_surrogate dt out w1 = (inl tt, w2) ->
  exists sur,
    self w2 !! "rbf_surr" = Some (Surrogate sur) /\
    surrogate_input_bounds sur !! "heat_load" = Some (100, 1000)%Q /\
    surrogate_input_bounds sur !! "hours_storage" = Some (0, 26)%Q /\
    (forall name,
        In name ["heat_load"; "hours_storage"] ->
        exists v lo hi,
          self w1 !! name = Some (Component v) /\
          self w2 !! name = Some (Component v) /\
          bounds v = (Some lo, Some hi) /\
          surrogate_input_bounds sur !! name = Some (lo, hi)) /\
    (forall x,
        within_var_bounds x w2 ["heat_load"; "hours_storage"] ->
        within_input_domain x sur).
Proof.
  intros Hb Hc.
  pose proof (build_built w tt w1 I Hb) as Hw1.
  destruct (create_bounds dt out w1 tt w2 Hw1 Hc)
    as (Hw2 & sur & Hs & _ & Hbounds).
  destruct Hw1 as (_ & Hl1 & Hs1). destruct Hw2 as (_ & Hl2 & Hs2).
  exists sur. rewrite Hbounds.
  split; [exact Hs|].
  split; [reflexivity|]. split; [reflexivity|]. split.
  - intros name [<-|[<-|[]]].
    + exists heat_load_var, 100%Q, 1000%Q. repeat split; assumption.
    + exists hours_storage_var, 0%Q, 26%Q. repeat split; assumption.
  - intros x Hx name lo hi Hn. rewrite Hbounds in Hn.
    apply trained_bounds_lookup in Hn as [(-> & -> & ->)|(-> & -> & ->)].
    + apply (Hx "heat_load" heat_load_var);
        [cbn; auto | exact Hl2 | reflexivity].
    + apply (Hx "hours_storage" hours_storage_var);
        [cbn; auto | exact Hs2 | reflexivity].
Qed.

End logic.

(** *** [calculate_scaling_factors] *)

Lemma scale_if_unset_lookup var d (suffix : gmap string Q) k :
  scale_if_unset var d suffix !! k
  = match suffix !! k with
    | Some sf => Some sf
    | None => if decide (var = k) then Some d else None
    end.
Proof.
  unfold scale_if_unset, get_scaling_factor, set_scaling_factor.
  destruct (suffix !! var) as [sf|] eqn:E.
  - destruct (suffix !! k) eqn:Ek; [reflexivity|].
    destruct (decide (var = k)) as [<-|]; [congruence|reflexivity].
  - destruct (decide (var = k)) as [<-|Hne].
    + rewrite lookup_insert_eq, E. reflexivity.
    + rewrite lookup_insert_ne by exact Hne.
      destruct (suffix !! k); reflexivity.
Qed.

Lemma calculate_scaling_factors_lookup (suffix : gmap string Q) var :
  calculate_scaling_factors suffix !! var
  = match suffix !! var with
    | Some sf => Some sf
    | None => default_scaling_factor var
    end.
Proof.
  unfold calculate_scaling_factors, default_scaling_factor.
  rewrite !scale_if_unset_lookup.
  destruct (suffix !! var); [reflexivity|].
  repeat (case_decide; [reflexivity|]). reflexivity.
Qed.

(** C6.  [calculate_scaling_factors] never overwrites a scaling factor
    that is already set; it sets one for each of [hours_storage],
    [heat_load], [heat_annual], [heat], [electricity_annual] and
    [electricity] that has none, with 1e-2 for [heat_load] and 1e-4 for
    [heat_annual]; and it touches no other entry of the suffix. *)
Theorem calculate_scaling_factors_only_when_unset (suffix : gmap string Q) :
  (forall var sf,
      suffix !! var = Some sf ->
      calculate_scaling_factors suffix !! var = Some sf) /\
  (suffix !! "heat_load" = None ->
   calculate_scaling_factors suffix !! "heat_load" = Some 0.01%Q) /\
  (suffix !! "heat_annual" = None ->
   calculate_scaling_factors suffix !! "heat_annual" = Some 0.0001%Q) /\
  (forall var,
      In var ["heat_load"; "hours_storage"; "heat_annual";
              "electricity_annual"; "heat"; "electricity"] ->
      is_Some (calculate_scaling_factors suffix !! var)) /\
  (forall var,
      ~ In var ["heat_load"; "hours_storage"; "heat_annual";
                "electricity_annual"; "heat"; "electricity"] ->
      calculate_scaling_factors suffix !! var = suffix !! var).
Proof.
  repeat split.
  - intros var sf H. rewrite calculate_scaling_factors_lookup, H.
    reflexivity.
  - intros H. rewrite calculate_scaling_factors_lookup, H. reflexivity.
  - intros H. rewrite calculate_scaling_factors_lookup, H. reflexivity.
  - intros var Hin. rewrite calculate_scaling_factors_lookup.
    destruct (suffix !! var); [eauto|].
    cbn [In] in Hin.
    destruct Hin as [<-|[<-|[<-|[<-|[<-|[<-|[]]]]]]]; cbn; eauto.
  - intros var Hin. rewrite calculate_scaling_factors_lookup.
    destruct (suffix !! var); [reflexivity|].
    unfold default_scaling_factor.
    repeat (case_decide; [exfalso; apply Hin; subst var; cbn; tauto|]).
    reflexivity.
Qed.

Lemma calculate_scaling_factors_only_when_unset_witness :
  calculate_scaling_factors {["heat_annual" := 5%Q]} !! "heat_annual"
  = Some 5%Q /\
  calculate_scaling_factors {["heat_annual" := 5%Q]} !! "heat_load"
  = Some 0.01%Q.
Proof.
  split.
  - apply (calculate_scaling_factors_only_when_unset
             {["heat_annual" := 5%Q]}).
    vm_compute. reflexivity.
  - apply (calculate_scaling_factors_only_when_unset
             {["heat_annual" := 5%Q]}).
    vm_compute. reflexivity.
Defined.

(** *** Runs of the model *)

Abbreviation toy_build := (build (L := toy_libraries) "/pkg").
Abbreviation toy_create :=
  (_create_rbf_surrogate (L := toy_libraries)).
Abbreviation quiet_create :=
  (_create_rbf_surrogate (L := quiet_libraries)).
Abbreviation toy_sampling :=
  (_get_surrogate_data (L := toy_libraries) true).


Lemma solution_pickle_removed_witness :
  (fs example_stale !! "solution.pickle" = Some (File Blob) /\
   exists w',
     toy_create (Some example_dataset) None example_stale = (inl tt, w') /\
     solution_absent w') /\
  (solution_absent (example_built 0) /\
   exists w' sur,
     quiet_create (Some example_dataset) (Some "rbf.json") (example_built 0)
     = (inl tt, w') /\
     fs w' = <["rbf.json" := File (Json sur)]> (fs (example_built 0))) /\
  (exists w',
     toy_create None None example_stale = (inl tt, w') /\
     solution_absent w').
Proof.
  split; [|split].
  - split; [reflexivity|].
    destruct (proj1 (solution_pickle_removed (L := toy_libraries)
                       (Some example_dataset) None)
                ["heat_load"; "hours_storage"]
                ["heat_annual"; "electricity_annual"]
                example_dataset 6%nat
                (<["solution.pickle" := File Blob]> (fs example_stale))
                example_stale)
      as (w' & b & E & Hfs).
    + vm_compute. reflexivity.
    + vm_compute. reflexivity.
    + cbn. lia.
    + reflexivity.
    + reflexivity.
    + rewrite lookup_insert_eq. discriminate.
    + intros path Hp. discriminate Hp.
    + exists w'. split; [exact E|].
      unfold solution_absent. rewrite Hfs. apply lookup_delete_eq.
  - split; [vm_compute; reflexivity|].
    destruct (proj1 (solution_pickle_removed (L := quiet_libraries)
                       (Some example_dataset) (Some "rbf.json"))
                ["heat_load"; "hours_storage"]
                ["heat_annual"; "electricity_annual"]
                example_dataset 6%nat
                (fs (example_built 0))
                (example_built 0))
      as (w' & b & E & Hfs).
    + vm_compute. reflexivity.
    + vm_compute. reflexivity.
    + cbn. lia.
    + reflexivity.
    + reflexivity.
    + vm_compute. discriminate.
    + intros path [= <-]. vm_compute. discriminate.
    + exists w'. eexists. split; [exact E|].
      rewrite Hfs, delete_id by (vm_compute; reflexivity). reflexivity.
  - destruct (proj1 (solution_pickle_removed (L := toy_libraries) None None)
                ["heat_load"; "hours_storage"]
                ["heat_annual"; "electricity_annual"]
                (take 3 example_dataset) 3%nat
                (<["solution.pickle" := File Blob]> (fs example_stale))
                example_stale)
      as (w' & b & E & Hfs).
    + vm_compute. reflexivity.
    + vm_compute. reflexivity.
    + cbn. lia.
    + eexists. eexists. split; [apply run_eq; vm_compute; reflexivity|].
      vm_compute. reflexivity.
    + reflexivity.
    + rewrite lookup_insert_eq. discriminate.
    + intros path Hp. discriminate Hp.
    + exists w'. split; [exact E|].
      unfold solution_absent. rewrite Hfs. apply lookup_delete_eq.
Defined.

Lemma surrogate_inputs_within_trained_bounds_witness :
  exists sur,
    self (snd (toy_create (Some example_dataset) None
                 (snd (toy_build (example_world 0)))))
      !! "rbf_surr" = Some (Surrogate sur) /\
    surrogate_input_bounds sur !! "heat_load" = Some (100, 1000)%Q.
Proof.
  assert (E1 : fst (toy_build (example_world 0)) = inl tt)
    by (vm_compute; reflexivity).
  assert (E2 : fst (toy_create (Some example_dataset) None
                      (snd (toy_build (example_world 0)))) = inl tt)
    by (vm_compute; reflexivity).
  destruct (surrogate_inputs_within_trained_bounds (L := toy_libraries)
              "/pkg" (Some example_dataset) None _ _ _
              (run_eq _ _ _ E1) (run_eq _ _ _ E2))
    as (sur & H1 & H2 & _).
  exists sur. split; assumption.
Defined.

(** C1, measured on the code.  [_get_surrogate_data] draws its sample
    from numpy's global generator and passes no seed: two runs on the
    same dataset file with the same [n_samples] and the same attributes
    of [self], started in different generator states, return normally
    with different samples (and so with different training and
    validation sets).  Only the split that follows is seeded. *)
Theorem sampling_depends_on_generator_state :
  (forall g, fs (example_built g) = fs example_unit) /\
  (forall g, self (example_built g) = self example_unit) /\
  exists d0 d1,
    self (snd (toy_sampling (example_built 0))) !! "data"
    = Some (Frame d0) /\
    self (snd (toy_sampling (example_built 1))) !! "data"
    = Some (Frame d1) /\
    length d0 = 4%nat /\ length d1 = 4%nat /\
    d0 <> d1 /\
    fst (toy_sampling (example_built 0))
    <> fst (toy_sampling (example_built 1)).
Proof.
  split; [reflexivity|].
  split; [reflexivity|].
  eexists. eexists.
  split; [vm_compute; reflexivity|].
  split; [vm_compute; reflexivity|].
  split; [reflexivity|]. split; [reflexivity|].
  split.
  - intros H. discriminate H.
  - vm_compute. intros H. discriminate H.
Qed.

End trough_facts.
